(** * The Nylas API client: request/response mediation

    A shallow embedding of [nylas/client/client.py]: the response validator
    [_validate], the [nylas_excepted] decorator, the [APIClient] constructor
    and its [access_token] property, and the private operations used by the
    restful model collection.  Dictionaries of headers are finite maps,
    keyword arguments are association lists (insertion order matters for the
    query string), exceptions are values of an error monad threaded through
    the state of the HTTP transport. *)

From Stdlib Require Import ZArith String Ascii List Bool Lia.
From Stdlib Require Import Decimal DecimalString.
From stdpp Require Import base option gmap strings list fin_maps.

Import ListNotations.
Local Open Scope string_scope.
Local Open Scope Z_scope.
Local Set Warnings "-register-all".

(** ** Python values *)

(** What [json.loads] produces.  Numbers are kept integral: no operation of
    the client inspects a number. *)
Inductive json : Type :=
| JNull
| JBool (b : bool)
| JNum (n : Z)
| JStr (s : string)
| JArr (elems : list json)
| JObj (items : list (string * json)).

(** Values of keyword arguments ([**filters], [**kwargs]). *)
Inductive pyarg : Type :=
| AStr (s : string)
| AInt (n : Z).

Definition kwargs := list (string * pyarg).

(** ** Exceptions *)

(** The classes of [nylas.client.errors] raised by [_validate]. *)
Inductive exc_class : Type :=
| InvalidRequestError
| NotAuthorizedError
| MessageRejectedError
| NotFoundError
| MethodNotSupportedError
| ConflictError
| SendingQuotaExceededError
| ServerError
| ServiceUnavailableError
| ServerTimeoutError
| APIClientError.

(** The request body as [_validate] attaches it to an error: [None], the
    parsed JSON, or the body as it was sent when it is not JSON. *)
Inductive request_data : Type :=
| DataNone
| DataRaw (s : string)
| DataJson (j : json).

(** Keyword arguments of an API error. *)
Record error_kwargs : Type := {
  err_url : string;
  err_status_code : Z;
  err_data : request_data;
  err_message : option json;
  err_server_error : option json
}.

Inductive exn : Type :=
| NylasAPIError (cls : exc_class) (kw : error_kwargs)
| NylasConnectionError (url : string)
| RequestsConnectionError
| PyValueError
| PyTypeError
| PyIndexError
| PyKeyError
| PyException (msg : string).

Inductive result (A : Type) : Type :=
| Return (a : A)
| Raise (e : exn).

Arguments Return {A} a.
Arguments Raise {A} e.

Definition rbind {A B} (r : result A) (k : A -> result B) : result B :=
  match r with
  | Return a => k a
  | Raise e => Raise e
  end.

(** [try: body except (ValueError, TypeError): handler] *)
Definition except_value_type {A} (body handler : result A) : result A :=
  match body with
  | Raise PyValueError => handler
  | Raise PyTypeError => handler
  | r => r
  end.

(** ** HTTP *)

Inductive http_method : Type := GET | POST | PUT | DELETE.

(** The body argument of a call to [requests]: [data=], [json=] or
    [files=]. *)
Inductive payload : Type :=
| NoPayload
| DataPayload (s : string)
| JsonPayload (j : json)
| FilesPayload (j : json).

(** A [requests.Session]: only its default headers matter here. *)
Record Session : Type := { headers : gmap string string }.

(** What reaches the transport: headers are the session's, overridden by
    the headers given to the call. *)
Record HttpCall : Type := {
  call_method : http_method;
  call_url : string;
  call_headers : gmap string string;
  call_payload : payload
}.

(** [response.request]: the prepared request. *)
Record PreparedRequest : Type := {
  method : http_method;
  url : string;
  body : option string
}.

Record Response : Type := {
  status_code : Z;
  text : string;
  request : PreparedRequest
}.

(** [response.content]: the raw body. *)
Definition content (r : Response) : string := text r.

(** ** Strings *)

Fixpoint prefixb (p s : string) : bool :=
  match p, s with
  | EmptyString, _ => true
  | String a p', String b s' => if Ascii.eqb a b then prefixb p' s' else false
  | String _ _, EmptyString => false
  end.

(** [sub in s] on strings. *)
Fixpoint str_contains (sub s : string) : bool :=
  if prefixb sub s then true
  else match s with
       | EmptyString => false
       | String _ s' => str_contains sub s'
       end.

Definition is_empty (s : string) : bool :=
  match s with EmptyString => true | _ => false end.

(** Truth value of an optional string: [None] and [''] are false. *)
Definition truthy (o : option string) : bool :=
  match o with
  | Some s => negb (is_empty s)
  | None => false
  end.

(** [str(n)] *)
Definition str_int (n : Z) : string := NilZero.string_of_int (Z.to_int n).

(** ['{}'.format(o)] for an optional string: [None] prints as ["None"]. *)
Definition format_opt (o : option string) : string :=
  match o with
  | Some s => s
  | None => "None"
  end.

(** ** Dictionaries with insertion order *)

Fixpoint dict_get {V} (key : string) (d : list (string * V)) : option V :=
  match d with
  | [] => None
  | (k, v) :: d' => if String.eqb k key then Some v else dict_get key d'
  end.

Definition dict_has {V} (key : string) (d : list (string * V)) : bool :=
  match dict_get key d with Some _ => true | None => false end.

Fixpoint dict_del {V} (key : string) (d : list (string * V)) : list (string * V) :=
  match d with
  | [] => []
  | (k, v) :: d' => if String.eqb k key then dict_del key d' else (k, v) :: dict_del key d'
  end.

(** [d[key] = v]: an existing key keeps its position. *)
Fixpoint dict_set {V} (key : string) (v : V) (d : list (string * V)) : list (string * V) :=
  match d with
  | [] => [(key, v)]
  | (k, w) :: d' => if String.eqb k key then (k, v) :: d' else (k, w) :: dict_set key v d'
  end.

(** [d.update(other)] *)
Definition dict_update {V} (d other : list (string * V)) : list (string * V) :=
  fold_left (fun acc kv => dict_set (fst kv) (snd kv) acc) other d.

(** [d.setdefault(key, v)] *)
Definition dict_setdefault {V} (key : string) (v : V) (d : list (string * V)) : list (string * V) :=
  if dict_has key d then d else dict_set key v d.

(** ** Operations of Python on JSON values *)

(** [key in j] *)
Definition py_in (key : string) (j : json) : result bool :=
  match j with
  | JObj items => Return (dict_has key items)
  | JArr elems =>
      Return (existsb (fun e => match e with JStr s => String.eqb s key | _ => false end) elems)
  | JStr s => Return (str_contains key s)
  | _ => Raise PyTypeError
  end.

(** [j[key]] for a string key. *)
Definition py_getitem (j : json) (key : string) : result json :=
  match j with
  | JObj items =>
      match dict_get key items with
      | Some v => Return v
      | None => Raise PyKeyError
      end
  | _ => Raise PyTypeError
  end.

Fixpoint chars (s : string) : list json :=
  match s with
  | EmptyString => []
  | String a s' => JStr (String a EmptyString) :: chars s'
  end.

(** [for x in j] *)
Definition py_iter (j : json) : result (list json) :=
  match j with
  | JArr elems => Return elems
  | JObj items => Return (map (fun kv => JStr (fst kv)) items)
  | JStr s => Return (chars s)
  | _ => Raise PyTypeError
  end.

(** [**j]: the keyword arguments a mapping unpacks to. *)
Definition unpack (j : json) : result (list (string * json)) :=
  match j with
  | JObj items => Return items
  | _ => Raise PyTypeError
  end.

Definition is_null (j : json) : bool :=
  match j with JNull => true | _ => false end.

(** ** The Python runtime the client runs on *)

(** [json.loads] ([None]: the text is not JSON, a [ValueError]),
    [json.dumps], the [User-Agent] string computed in [__init__] from the
    SDK version and [sys.version_info], and the default headers of a fresh
    [requests.Session()]. *)
Class Python : Type := {
  json_loads : string -> option json;
  json_dumps : json -> string;
  version_header : string;
  default_headers : gmap string string
}.

(** The HTTP transport behind [requests]: a call either yields a response or
    fails to connect, and may change the state of the world. *)
Inductive outcome : Type :=
| Responded (r : Response)
| ConnectionFailed.

Class Transport : Type := {
  World : Type;
  transport : HttpCall -> World -> outcome * World
}.

(** ** Response validation *)

Section Validate.
Context `{Python}.

Definition status_code_to_exc : list (Z * exc_class) :=
  [ (400, InvalidRequestError);
    (401, NotAuthorizedError);
    (402, MessageRejectedError);
    (403, NotAuthorizedError);
    (404, NotFoundError);
    (405, MethodNotSupportedError);
    (409, ConflictError);
    (429, SendingQuotaExceededError);
    (500, ServerError);
    (503, ServiceUnavailableError);
    (504, ServerTimeoutError) ].

Fixpoint table_get (code : Z) (d : list (Z * exc_class)) : option exc_class :=
  match d with
  | [] => None
  | (k, v) :: d' => if Z.eqb k code then Some v else table_get code d'
  end.

(** [json.loads(data) if data else None], a parse failure leaving [data] as
    it was. *)
Definition parse_request_data (data : option string) : request_data :=
  match data with
  | Some s =>
      if is_empty s then DataNone
      else match json_loads s with
           | Some j => DataJson j
           | None => DataRaw s
           end
  | None => DataNone
  end.

Definition set_message (v : json) (kw : error_kwargs) : error_kwargs :=
  {| err_url := err_url kw; err_status_code := err_status_code kw;
     err_data := err_data kw; err_message := Some v;
     err_server_error := err_server_error kw |}.

Definition set_server_error (v : json) (kw : error_kwargs) : error_kwargs :=
  {| err_url := err_url kw; err_status_code := err_status_code kw;
     err_data := err_data kw; err_message := err_message kw;
     err_server_error := Some v |}.

(** [if key in response: kwargs[key] = response[key]] *)
Definition copy_key (key : string) (set : json -> error_kwargs -> error_kwargs)
    (response : json) (kw : error_kwargs) : result error_kwargs :=
  rbind (py_in key response) (fun present =>
    if present : bool
    then rbind (py_getitem response key) (fun v => Return (set v kw))
    else Return kw).

(** The print under [DEBUG] is left out. *)
Definition _validate (response : Response) : result Response :=
  let request := request response in
  let url := url request in
  let status_code := status_code response in
  let data := parse_request_data (body request) in
  if status_code =? 200 then Return response
  else match table_get status_code status_code_to_exc with
       | Some cls =>
           except_value_type
             (match json_loads (text response) with
              | None => Raise PyValueError
              | Some response =>
                  let kwargs := {| err_url := url; err_status_code := status_code;
                                   err_data := data; err_message := None;
                                   err_server_error := None |} in
                  rbind (copy_key "message" set_message response kwargs) (fun kwargs =>
                  rbind (copy_key "server_error" set_server_error response kwargs) (fun kwargs =>
                  Raise (NylasAPIError cls kwargs)))
              end)
             (Raise (NylasAPIError cls
                {| err_url := url; err_status_code := status_code;
                   err_data := data; err_message := Some (JStr "Malformed");
                   err_server_error := None |}))
       | None =>
           Raise (NylasAPIError APIClientError
             {| err_url := url; err_status_code := status_code;
                err_data := data; err_message := Some (JStr "Unknown status code.");
                err_server_error := None |})
       end.

End Validate.

(** ** Standard library functions the client calls *)

Definition b64_alphabet : string :=
  "ABCDEFGHIJKLMNOPQRSTUVWXYZabcdefghijklmnopqrstuvwxyz0123456789+/".

Definition b64_char (n : N) : ascii :=
  match String.get (N.to_nat n) b64_alphabet with
  | Some c => c
  | None => "="%char
  end.

Definition b64_quad (n : N) (pad : nat) (rest : string) : string :=
  let c1 := b64_char (n / 262144) in
  let c2 := b64_char ((n / 4096) mod 64) in
  let c3 := if (2 <=? pad)%nat then "="%char else b64_char ((n / 64) mod 64) in
  let c4 := if (1 <=? pad)%nat then "="%char else b64_char (n mod 64) in
  String c1 (String c2 (String c3 (String c4 rest))).

(** Three bytes give four characters; a last group of one or two bytes is
    padded with [=]. *)
Fixpoint b64_groups (l : list N) : string :=
  match l with
  | a :: b :: c :: rest => b64_quad (a * 65536 + b * 256 + c)%N 0 (b64_groups rest)
  | [a; b] => b64_quad (a * 65536 + b * 256)%N 1 ""
  | [a] => b64_quad (a * 65536)%N 2 ""
  | [] => ""
  end.

(** [b64encode(s.encode('utf8')).decode('utf8')]: a string is the sequence
    of its bytes. *)
Definition b64encode (s : string) : string :=
  b64_groups (map N_of_ascii (list_ascii_of_string s)).

Definition is_unreserved (c : ascii) : bool :=
  let n := N_of_ascii c in
  ((48 <=? n) && (n <=? 57) || (65 <=? n) && (n <=? 90) || (97 <=? n) && (n <=? 122)
   || (n =? 95) || (n =? 46) || (n =? 45) || (n =? 126))%N.

Definition hex_digit (n : N) : ascii :=
  match String.get (N.to_nat n) "0123456789ABCDEF" with
  | Some c => c
  | None => "0"%char
  end.

Definition quote_char (c : ascii) : string :=
  if is_unreserved c then String c ""
  else if Ascii.eqb c " "%char then "+"
  else let n := N_of_ascii c in
       String "%"%char (String (hex_digit (n / 16)) (String (hex_digit (n mod 16)) "")).

(** [urllib.parse.quote_plus] *)
Fixpoint quote_plus (s : string) : string :=
  match s with
  | EmptyString => ""
  | String c s' => quote_char c ++ quote_plus s'
  end.

Definition str_arg (a : pyarg) : string :=
  match a with
  | AStr s => s
  | AInt n => str_int n
  end.

Definition query_segment (kv : string * pyarg) : string :=
  quote_plus (fst kv) ++ "=" ++ quote_plus (str_arg (snd kv)).

(** [urllib.parse.urlencode] of a dictionary. *)
Definition urlencode (args : kwargs) : string :=
  String.concat "&" (map query_segment args).

(** Modelled from the spec: [nylas.client.util.url_concat] is not among the
    sources.  Section 4.1: the query parameters are appended to the URL with
    standard percent-encoding, and a parameter whose value is [0] is encoded
    as the literal [0], not omitted. *)
Definition url_concat (url : string) (args : kwargs) : string :=
  match args with
  | [] => url
  | _ => url ++ "?" ++ urlencode args
  end.

(** Truth value of a JSON value held in a Python variable. *)
Definition json_truthy (j : json) : bool :=
  match j with
  | JNull => false
  | JBool b => b
  | JNum n => negb (n =? 0)
  | JStr s => negb (is_empty s)
  | JArr elems => match elems with [] => false | _ => true end
  | JObj items => match items with [] => false | _ => true end
  end.

(** ** The client *)

Definition API_SERVER : string := "https://api.nylas.com".

(** A model class of [nylas.client.restful_models], as far as the client
    looks at it. *)
Record ModelClass : Type := {
  cls_name : string;
  collection_name : string;
  api_root : string
}.

#[global] Instance ModelClass_eq_dec : EqDecision ModelClass.
Proof. solve_decision. Defined.

Record APIClient : Type := {
  api_server : string;
  authorize_url : string;
  access_token_url : string;
  revoke_url : string;
  app_secret : option string;
  app_id : option string;
  session : Session;
  _access_token : option string;
  auth_token : option string;
  admin_session : Session
}.

Definition with_session (s : Session) (self : APIClient) : APIClient :=
  {| api_server := api_server self; authorize_url := authorize_url self;
     access_token_url := access_token_url self; revoke_url := revoke_url self;
     app_secret := app_secret self; app_id := app_id self;
     session := s; _access_token := _access_token self;
     auth_token := auth_token self; admin_session := admin_session self |}.

Definition with__access_token (v : option string) (self : APIClient) : APIClient :=
  {| api_server := api_server self; authorize_url := authorize_url self;
     access_token_url := access_token_url self; revoke_url := revoke_url self;
     app_secret := app_secret self; app_id := app_id self;
     session := session self; _access_token := v;
     auth_token := auth_token self; admin_session := admin_session self |}.

Definition with_auth_token (v : option string) (self : APIClient) : APIClient :=
  {| api_server := api_server self; authorize_url := authorize_url self;
     access_token_url := access_token_url self; revoke_url := revoke_url self;
     app_secret := app_secret self; app_id := app_id self;
     session := session self; _access_token := _access_token self;
     auth_token := v; admin_session := admin_session self |}.

Definition with_admin_session (s : Session) (self : APIClient) : APIClient :=
  {| api_server := api_server self; authorize_url := authorize_url self;
     access_token_url := access_token_url self; revoke_url := revoke_url self;
     app_secret := app_secret self; app_id := app_id self;
     session := session self; _access_token := _access_token self;
     auth_token := auth_token self; admin_session := s |}.

(** The getter of the [access_token] property. *)
Definition access_token (self : APIClient) : option string := _access_token self.

(** The setter of the [access_token] property. *)
Definition set_access_token (value : option string) (self : APIClient) : APIClient :=
  let self := with__access_token value self in
  if truthy value
  then let authorization := "Bearer " ++ format_opt value in
       with_session
         {| headers := <["Authorization" := authorization]> (headers (session self)) |} self
  else with_session {| headers := delete "Authorization" (headers (session self)) |} self.

Section Init.
Context `{Python}.

Definition __init__ (app_id app_secret access_token : option string)
    (api_server : string) : result APIClient :=
  if negb (str_contains "://" api_server)
  then Raise (PyException
    "When overriding the Nylas API server address, you must include https://")
  else
    let self :=
      {| api_server := api_server;
         authorize_url := api_server ++ "/oauth/authorize";
         access_token_url := api_server ++ "/oauth/token";
         revoke_url := api_server ++ "/oauth/revoke";
         app_secret := app_secret;
         app_id := app_id;
         session := {| headers := <["X-Nylas-API-Wrapper" := "python"]>
                                  (<["User-Agent" := version_header]> ∅) |};
         _access_token := None;
         auth_token := None;
         admin_session := {| headers := default_headers |} |} in
    let self := set_access_token access_token self in
    let self := with_auth_token None self in
    Return
      match app_secret with
      | Some secret =>
          let authorization := "Basic " ++ b64encode (secret ++ ":") in
          with_admin_session
            {| headers := <["Authorization" := authorization]>
                          (<["X-Nylas-API-Wrapper" := "python"]>
                          (<["User-Agent" := version_header]> ∅)) |} self
      | None => self
      end.

End Init.

Definition is_opensource_api (self : APIClient) : bool :=
  match app_id self, app_secret self with
  | None, None => true
  | _, _ => false
  end.

Definition _get_http_session (self : APIClient) (api_root : string) : Session :=
  if String.eqb api_root "a" then admin_session self else session self.

(** The model classes: [cls.create(api, **kwargs)] of
    [nylas.client.restful_models] builds a resource from the fields of a
    JSON object; [File] is the class compared with in the create
    operations. *)
Class Models : Type := {
  Resource : Type;
  create : ModelClass -> APIClient -> list (string * json) -> Resource;
  File : ModelClass
}.

(** ** Computations that talk to the transport *)

Section Monad.
Context `{Transport}.

Definition M (A : Type) : Type := World -> result A * World.

Definition ret {A} (a : A) : M A := fun w => (Return a, w).

Definition lift {A} (r : result A) : M A := fun w => (r, w).

Definition bind {A B} (c : M A) (k : A -> M B) : M B :=
  fun w => match c w with
           | (Return a, w') => k a w'
           | (Raise e, w') => (Raise e, w')
           end.

End Monad.

Notation "'let!' x ':=' c 'in' k" := (bind c (fun x => k))
  (at level 10, x name, c at level 100, k at level 200).

Section Operations.
Context `{Python} `{Transport} `{Models}.

(** [session.get(url, headers=...)] and its siblings.  [requests] merges
    the headers given to the call over the headers of the session: a header
    of the call overrides the header of the session with the same name. *)
Definition session_request (s : Session) (m : http_method) (url : string)
    (hdrs : option (gmap string string)) (p : payload) : M Response :=
  fun w =>
    let merged := match hdrs with
                  | Some h => h ∪ headers s
                  | None => headers s
                  end in
    match transport {| call_method := m; call_url := url;
                       call_headers := merged; call_payload := p |} w with
    | (Responded r, w') => (Return r, w')
    | (ConnectionFailed, w') => (Raise RequestsConnectionError, w')
    end.

(** [response.json()] *)
Definition json_of (r : Response) : result json :=
  match json_loads (text r) with
  | Some j => Return j
  | None => Raise PyValueError
  end.

(** The decorator: [args[0]] is the client. *)
Definition nylas_excepted {A} (func : APIClient -> M A) : APIClient -> M A :=
  fun self w =>
    match func self w with
    | (Raise RequestsConnectionError, w') =>
        (Raise (NylasConnectionError (api_server self)), w')
    | r => r
    end.

(** [cls.create(self, **x)] *)
Definition create_from (cls : ModelClass) (self : APIClient) (x : json)
    : result Resource :=
  rbind (unpack x) (fun kw => Return (create cls self kw)).

(** A list comprehension whose element expression may raise. *)
Fixpoint comprehension {A B} (f : A -> result B) (l : list A) : result (list B) :=
  match l with
  | [] => Return []
  | x :: l' =>
      rbind (f x) (fun y => rbind (comprehension f l') (fun ys => Return (y :: ys)))
  end.

Definition postfix_of (extra : option string) : string :=
  if truthy extra then "/" ++ format_opt extra else "".

Definition add_query (url : string) (kw : kwargs) : string :=
  match kw with
  | [] => url
  | _ => url ++ "?" ++ urlencode kw
  end.

Definition _get_resources (self : APIClient) (cls : ModelClass)
    (extra : option string) (filters : kwargs) : M (list Resource) :=
  nylas_excepted (fun self =>
    let postfix := postfix_of extra in
    let url :=
      if negb (String.eqb (api_root cls) "a")
      then api_server self ++ "/" ++ collection_name cls ++ postfix
      else api_server self ++ "/a/" ++ format_opt (app_id self) ++ "/"
           ++ collection_name cls ++ postfix in
    let url := url_concat url filters in
    let! response := session_request (_get_http_session self (api_root cls))
                       GET url None NoPayload in
    let! results := lift (rbind (_validate response) json_of) in
    lift (rbind (py_iter results) (fun xs =>
      comprehension (create_from cls self)
        (List.filter (fun x => negb (is_null x)) xs)))) self.

Definition _get_resource_raw (self : APIClient) (cls : ModelClass) (id : string)
    (extra : option string) (hdrs : option (gmap string string))
    (filters : kwargs) : M Response :=
  nylas_excepted (fun self =>
    let hdrs := headers (session self) ∪ default ∅ hdrs in
    let postfix := postfix_of extra in
    let url :=
      if negb (String.eqb (api_root cls) "a")
      then api_server self ++ "/" ++ collection_name cls ++ "/" ++ id ++ postfix
      else api_server self ++ "/a/" ++ format_opt (app_id self) ++ "/"
           ++ collection_name cls ++ "/" ++ id ++ postfix in
    let url := url_concat url filters in
    let! response := session_request (_get_http_session self (api_root cls))
                       GET url (Some hdrs) NoPayload in
    lift (_validate response)) self.

Definition _get_resource (self : APIClient) (cls : ModelClass) (id : string)
    (filters : kwargs) : M Resource :=
  let! response := _get_resource_raw self cls id None None filters in
  let! result := lift (json_of response) in
  let! result := lift (match result with
                       | JArr elems =>
                           match elems with
                           | x :: _ => Return x
                           | [] => Raise PyIndexError
                           end
                       | _ => Return result
                       end) in
  lift (create_from cls self result).

Definition _get_resource_data (self : APIClient) (cls : ModelClass) (id : string)
    (extra : option string) (hdrs : option (gmap string string))
    (filters : kwargs) : M string :=
  let! response := _get_resource_raw self cls id extra hdrs filters in
  ret (content response).

(** What [_create_resource] returns: the parsed response itself for the
    [send] collection, a resource otherwise. *)
Inductive created : Type :=
| RawResult (j : json)
| Wrapped (r : Resource).

(** The request of both create operations. *)
Definition post_data (self : APIClient) (cls : ModelClass) (url : string)
    (data : json) : M Response :=
  let http_session := _get_http_session self (api_root cls) in
  if decide (cls = File)
  then session_request http_session POST url None (FilesPayload data)
  else
    let data := json_dumps data in
    let hdrs := headers (session self) ∪ {["Content-Type" := "application/json"]} in
    session_request http_session POST url (Some hdrs) (DataPayload data).

Definition _create_resource (self : APIClient) (cls : ModelClass) (data : json)
    (kw : kwargs) : M created :=
  nylas_excepted (fun self =>
    let url := api_server self ++ "/" ++ collection_name cls ++ "/" in
    let url := add_query url kw in
    let! response := post_data self cls url data in
    let! result := lift (rbind (_validate response) json_of) in
    if String.eqb (collection_name cls) "send"
    then ret (RawResult result)
    else lift (rbind (create_from cls self result) (fun r => Return (Wrapped r)))) self.

Definition _create_resources (self : APIClient) (cls : ModelClass) (data : json)
    : M (list Resource) :=
  nylas_excepted (fun self =>
    let url := api_server self ++ "/" ++ collection_name cls ++ "/" in
    let! response := post_data self cls url data in
    let! results := lift (rbind (_validate response) json_of) in
    lift (rbind (py_iter results) (comprehension (create_from cls self)))) self.

Definition _delete_resource (self : APIClient) (cls : ModelClass) (id : string)
    (data : option json) (kw : kwargs) : M unit :=
  nylas_excepted (fun self =>
    let name := collection_name cls in
    let url := api_server self ++ "/" ++ name ++ "/" ++ id in
    let url := add_query url kw in
    let http_session := _get_http_session self (api_root cls) in
    let sent := match data with
                | Some j => if json_truthy j then JsonPayload j else NoPayload
                | None => NoPayload
                end in
    let! response := session_request http_session DELETE url None sent in
    let! _ := lift (_validate response) in
    ret tt) self.

Definition _update_resource (self : APIClient) (cls : ModelClass) (id : string)
    (data : json) (kw : kwargs) : M Resource :=
  nylas_excepted (fun self =>
    let name := collection_name cls in
    let url := api_server self ++ "/" ++ name ++ "/" ++ id in
    let url := add_query url kw in
    let http_session := _get_http_session self (api_root cls) in
    let! response := session_request http_session PUT url None (JsonPayload data) in
    let! result := lift (rbind (_validate response) json_of) in
    lift (create_from cls self result)) self.

Definition _call_resource_method (self : APIClient) (cls : ModelClass) (id : string)
    (method_name : string) (data : json) : M Resource :=
  nylas_excepted (fun self =>
    let name := collection_name cls in
    let url :=
      if negb (String.eqb (api_root cls) "a")
      then api_server self ++ "/" ++ name ++ "/" ++ id ++ "/" ++ method_name
      else api_server self ++ "/a/" ++ format_opt (app_id self) ++ "/"
           ++ collection_name cls ++ "/" ++ id ++ "/" ++ method_name in
    let http_session := _get_http_session self (api_root cls) in
    let! response := session_request http_session POST url None (JsonPayload data) in
    let! result := lift (rbind (_validate response) json_of) in
    lift (create_from cls self result)) self.

(** [revoke_token] returns the client it leaves behind. *)
Definition revoke_token (self : APIClient) : M APIClient :=
  nylas_excepted (fun self =>
    let! resp := session_request (session self) POST (revoke_url self) None NoPayload in
    let! _ := lift (_validate resp) in
    ret (set_access_token None (with_auth_token None self))) self.

End Operations.

(** ** The lazy paginated collection *)

(** Modelled from the spec: [nylas.client.restful_model_collection] is not
    among the sources.  Section 4.5: each pull requests one page with
    [offset] and a fixed page size; the offset is put into the caller's
    filter set, the caller's own [offset], when present, being used
    verbatim; the cursor advances by the number of items returned; a page
    shorter than the page size, the empty page included, ends the
    traversal. *)
Definition CHUNK_SIZE : nat := 50.

(** Modelled from the spec: the cursor of section 3, the page size being
    the constant above. *)
Record RestfulModelCollection : Type := {
  model_class : ModelClass;
  api : APIClient;
  filters : kwargs
}.

(** Modelled from the spec: the collection a property of the client hands
    out, and [where]; both start from offset [0] unless the caller gave an
    offset (sections 4.5 and 8). *)
Definition new_collection (cls : ModelClass) (self : APIClient) : RestfulModelCollection :=
  {| model_class := cls; api := self; filters := dict_setdefault "offset" (AInt 0) [] |}.

Definition where_ (filter : kwargs) (c : RestfulModelCollection) : RestfulModelCollection :=
  {| model_class := model_class c; api := api c;
     filters := dict_setdefault "offset" (AInt 0) filter |}.

(** Modelled from the spec: where the traversal starts. *)
Definition start_offset (c : RestfulModelCollection) : pyarg :=
  match dict_get "offset" (filters c) with
  | Some v => v
  | None => AInt 0
  end.

(** Modelled from the spec: the cursor advances by the number of items
    returned; only an integer offset can advance. *)
Definition advance (offset : pyarg) (n : nat) : result pyarg :=
  match offset with
  | AInt k => Return (AInt (k + Z.of_nat n))
  | AStr _ => Raise PyTypeError
  end.

(** Modelled from the spec: the filters of the request for one page, the
    caller's filters with the offset and the page size. *)
Definition page_filters (c : RestfulModelCollection) (offset : pyarg) (limit : nat) : kwargs :=
  dict_set "limit" (AInt (Z.of_nat limit)) (dict_set "offset" offset (filters c)).

Section Collection.
Context `{Python} `{Transport} `{Models}.

(** Modelled from the spec: one pull of the cursor, a list request. *)
Definition _get_model_collection (c : RestfulModelCollection) (offset : pyarg)
    (limit : nat) : M (list Resource) :=
  _get_resources (api c) (model_class c) None (page_filters c offset limit).

(** Modelled from the spec: pulling pages until a short one.  The traversal
    of an endless run of full pages does not end: [None] is returned when
    [fuel] pages were all full. *)
Fixpoint drain (fuel : nat) (c : RestfulModelCollection) (offset : pyarg)
    : M (option (list Resource)) :=
  match fuel with
  | O => ret None
  | S fuel' =>
      let! page := _get_model_collection c offset CHUNK_SIZE in
      if (length page <? CHUNK_SIZE)%nat
      then ret (Some page)
      else
        let! offset' := lift (advance offset (length page)) in
        let! rest := drain fuel' c offset' in
        ret (option_map (app page) rest)
  end.

(** Modelled from the spec: [all()] drains the sequence into a list. *)
Definition all_ (fuel : nat) (c : RestfulModelCollection) : M (option (list Resource)) :=
  drain fuel c (start_offset c).

(** Modelled from the spec: [list(collection.items())] makes the same pulls
    as [all()]; the laziness of [items()] is not modelled. *)
Definition items (fuel : nat) (c : RestfulModelCollection) : M (option (list Resource)) :=
  drain fuel c (start_offset c).

End Collection.

(** ** A concrete runtime *)

(** A reader and a printer for the fragment of JSON without escapes,
    fractions and exponents; they stand for [json.loads] and [json.dumps]
    in the examples. *)

Definition dquote : ascii := Eval cbv in ascii_of_nat 34.

Definition is_ws (c : ascii) : bool :=
  let n := N_of_ascii c in ((n =? 32) || (n =? 9) || (n =? 10) || (n =? 13))%N.

Definition is_digit (c : ascii) : bool :=
  let n := N_of_ascii c in ((48 <=? n) && (n <=? 57))%N.

Fixpoint skip_ws (s : string) : string :=
  match s with
  | String c s' => if is_ws c then skip_ws s' else s
  | EmptyString => s
  end.

Fixpoint drop_chars (n : nat) (s : string) : string :=
  match n, s with
  | S n', String _ s' => drop_chars n' s'
  | _, _ => s
  end.

Fixpoint read_digits (acc : Z) (s : string) : Z * string :=
  match s with
  | String c s' =>
      if is_digit c then read_digits (10 * acc + (Z.of_N (N_of_ascii c) - 48)) s'
      else (acc, s)
  | EmptyString => (acc, s)
  end.

(** The characters up to the closing quote. *)
Fixpoint read_string (s : string) : option (string * string) :=
  match s with
  | String c s' =>
      if Ascii.eqb c dquote then Some (EmptyString, s')
      else if Ascii.eqb c "\"%char then None
      else match read_string s' with
           | Some (str, rest) => Some (String c str, rest)
           | None => None
           end
  | EmptyString => None
  end.

Definition starts_digit (s : string) : bool :=
  match s with
  | String c _ => is_digit c
  | EmptyString => false
  end.

Fixpoint read_value (fuel : nat) (s : string) : option (json * string) :=
  match fuel with
  | O => None
  | S fuel' =>
      let s := skip_ws s in
      if prefixb "null" s then Some (JNull, drop_chars 4 s)
      else if prefixb "true" s then Some (JBool true, drop_chars 4 s)
      else if prefixb "false" s then Some (JBool false, drop_chars 5 s)
      else match s with
           | String c r =>
               if Ascii.eqb c "["%char then
                 match skip_ws r with
                 | String "]"%char r' => Some (JArr [], r')
                 | _ => match read_elems fuel' r with
                        | Some (vs, r') => Some (JArr vs, r')
                        | None => None
                        end
                 end
               else if Ascii.eqb c "{"%char then
                 match skip_ws r with
                 | String "}"%char r' => Some (JObj [], r')
                 | _ => match read_members fuel' r with
                        | Some (kvs, r') => Some (JObj kvs, r')
                        | None => None
                        end
                 end
               else if Ascii.eqb c dquote then
                 match read_string r with
                 | Some (str, r') => Some (JStr str, r')
                 | None => None
                 end
               else if Ascii.eqb c "-"%char then
                 if starts_digit r
                 then let (n, r') := read_digits 0 r in Some (JNum (- n), r')
                 else None
               else if is_digit c then
                 let (n, r') := read_digits 0 s in Some (JNum n, r')
               else None
           | EmptyString => None
           end
  end
with read_elems (fuel : nat) (s : string) : option (list json * string) :=
  match fuel with
  | O => None
  | S fuel' =>
      match read_value fuel' s with
      | Some (v, r) =>
          match skip_ws r with
          | String ","%char r' =>
              match read_elems fuel' r' with
              | Some (vs, r'') => Some (v :: vs, r'')
              | None => None
              end
          | String "]"%char r' => Some ([v], r')
          | _ => None
          end
      | None => None
      end
  end
with read_members (fuel : nat) (s : string) : option (list (string * json) * string) :=
  match fuel with
  | O => None
  | S fuel' =>
      match skip_ws s with
      | String c r =>
          if Ascii.eqb c dquote then
            match read_string r with
            | Some (key, r1) =>
                match skip_ws r1 with
                | String ":"%char r2 =>
                    match read_value fuel' r2 with
                    | Some (v, r3) =>
                        match skip_ws r3 with
                        | String ","%char r4 =>
                            match read_members fuel' r4 with
                            | Some (kvs, r5) =>
                                Some (if dict_has key kvs then kvs else (key, v) :: kvs, r5)
                            | None => None
                            end
                        | String "}"%char r4 => Some ([(key, v)], r4)
                        | _ => None
                        end
                    | None => None
                    end
                | _ => None
                end
            | None => None
            end
          else None
      | EmptyString => None
      end
  end.

Definition loads (s : string) : option json :=
  match read_value (2 * String.length s + 2) s with
  | Some (j, rest) => if is_empty (skip_ws rest) then Some j else None
  | None => None
  end.

Fixpoint dumps (j : json) : string :=
  match j with
  | JNull => "null"
  | JBool true => "true"
  | JBool false => "false"
  | JNum n => str_int n
  | JStr s => String dquote (s ++ String dquote EmptyString)
  | JArr elems => "[" ++ String.concat ", " (map dumps elems) ++ "]"
  | JObj items =>
      "{" ++ String.concat ", "
               (map (fun kv => String dquote (fst kv ++ String dquote (": " ++ dumps (snd kv))))
                    items)
      ++ "}"
  end.

Definition cpython : Python := {|
  json_loads := loads;
  json_dumps := dumps;
  version_header := "Nylas Python SDK 1.2.3 - 3.6.8";
  default_headers :=
    <["User-Agent" := "python-requests/2.18.4"]>
    (<["Accept-Encoding" := "gzip, deflate"]>
    (<["Accept" := "*/*"]>
    (<["Connection" := "keep-alive"]> ∅)))
|}.

(** A resource is represented by the call that builds it. *)
Record Built : Type := {
  built_class : ModelClass;
  built_fields : list (string * json)
}.

(** Model classes of [nylas.client.restful_models] for the examples: a
    class of the standard namespace, a class of the admin namespace and
    the class of the [send] collection. *)
Definition Event : ModelClass :=
  {| cls_name := "Event"; collection_name := "events"; api_root := "n" |}.

Definition Account : ModelClass :=
  {| cls_name := "Account"; collection_name := "accounts"; api_root := "a" |}.

Definition Send : ModelClass :=
  {| cls_name := "Send"; collection_name := "send"; api_root := "n" |}.

Definition models : Models := {|
  Resource := Built;
  create := fun cls _ kw => {| built_class := cls; built_fields := kw |};
  File := {| cls_name := "File"; collection_name := "files"; api_root := "n" |}
|}.

(** ** The mocked transport of the tests *)

(** [test_filter.py] registers a callback that pops the response to give
    from the end of the list [values]; the mock records every call.  A call
    no response is left for is refused with a connection error. *)
Record Mocked : Type := {
  values : list (Z * string);
  calls : list HttpCall
}.

Definition sent_body `{Python} (p : payload) : option string :=
  match p with
  | NoPayload => None
  | DataPayload s => Some s
  | JsonPayload j => Some (json_dumps j)
  | FilesPayload j => Some (json_dumps j)
  end.

Definition callback `{Python} (call : HttpCall) (w : Mocked) : outcome * Mocked :=
  let calls' := (calls w ++ [call])%list in
  match rev (values w) with
  | [] => (ConnectionFailed, {| values := []; calls := calls' |})
  | (status, body) :: earlier =>
      (Responded {| status_code := status; text := body;
                    request := {| method := call_method call; url := call_url call;
                                  body := sent_body (call_payload call) |} |},
       {| values := rev earlier; calls := calls' |})
  end.

Definition mocked_responses `{Python} : Transport := {|
  World := Mocked;
  transport := callback
|}.

(** The fixtures of the tests. *)
Definition api_url : string := "https://localhost:2222".

Definition message_fields : list (string * json) :=
  [("busy", JBool true); ("id", JStr "cv4ei7syx10uvsxbs21ccsezf");
   ("object", JStr "event"); ("title", JStr "The rain song")].

Definition message_body : json := JObj message_fields.

(** [json.dumps([message_body for _ in range(1, n + 1)])] *)
Definition message_body_list (n : nat) : string :=
  dumps (JArr (repeat message_body n)).

(** [test_no_filter]: the callback pops the page of 50 first, the page of
    22 second. *)
Definition test_no_filter : Mocked :=
  {| values := [(200, message_body_list 22); (200, message_body_list 50)];
     calls := [] |}.

(** ** The operations of the mediator *)

(** The public operations of section 4.4 and the private function of the
    client each one runs. *)
Inductive operation : Type :=
| ListOp (cls : ModelClass) (extra : option string) (filters : kwargs)
| GetOne (cls : ModelClass) (id : string) (filters : kwargs)
| GetRaw (cls : ModelClass) (id : string) (extra : option string)
         (hdrs : option (gmap string string)) (filters : kwargs)
| CreateOp (cls : ModelClass) (data : json) (kw : kwargs)
| CreateMany (cls : ModelClass) (data : json)
| UpdateOp (cls : ModelClass) (id : string) (data : json) (kw : kwargs)
| DeleteOp (cls : ModelClass) (id : string) (data : option json) (kw : kwargs)
| InvokeAction (cls : ModelClass) (id : string) (method_name : string) (data : json).

Section Mediator.
Context `{Python} `{Transport} `{Models}.

Inductive answer : Type :=
| Resources (l : list Resource)
| OneResource (r : Resource)
| Bytes (s : string)
| Created (c : created)
| Nothing.

Definition perform (self : APIClient) (op : operation) : M answer :=
  match op with
  | ListOp cls extra filters =>
      let! l := _get_resources self cls extra filters in ret (Resources l)
  | GetOne cls id filters =>
      let! r := _get_resource self cls id filters in ret (OneResource r)
  | GetRaw cls id extra hdrs filters =>
      let! s := _get_resource_data self cls id extra hdrs filters in ret (Bytes s)
  | CreateOp cls data kw =>
      let! c := _create_resource self cls data kw in ret (Created c)
  | CreateMany cls data =>
      let! l := _create_resources self cls data in ret (Resources l)
  | UpdateOp cls id data kw =>
      let! r := _update_resource self cls id data kw in ret (OneResource r)
  | DeleteOp cls id data kw =>
      let! _ := _delete_resource self cls id data kw in ret Nothing
  | InvokeAction cls id method_name data =>
      let! r := _call_resource_method self cls id method_name data in ret (OneResource r)
  end.

End Mediator.

(** The error kind the table of section 4.3 gives for a status code other
    than 200. *)
Definition spec_error_kind (code : Z) : exc_class :=
  match code with
  | 400 => InvalidRequestError
  | 401 => NotAuthorizedError
  | 402 => MessageRejectedError
  | 403 => NotAuthorizedError
  | 404 => NotFoundError
  | 405 => MethodNotSupportedError
  | 409 => ConflictError
  | 429 => SendingQuotaExceededError
  | 500 => ServerError
  | 503 => ServiceUnavailableError
  | 504 => ServerTimeoutError
  | _ => APIClientError
  end.

(** The URL forms of section 4.1:
    [{base}/{collectionName}[/{id}][/{subAction}]] in the standard
    namespace, [{base}/a/{appId}/{collectionName}[/{id}][/{subAction}]] in
    the admin namespace. *)
Definition spec_url (self : APIClient) (cls : ModelClass) (id sub : option string) : string :=
  let tail :=
    collection_name cls
    ++ match id with Some i => "/" ++ i | None => "" end
    ++ match sub with Some a => "/" ++ a | None => "" end in
  if String.eqb (api_root cls) "a"
  then api_server self ++ "/a/" ++ format_opt (app_id self) ++ "/" ++ tail
  else api_server self ++ "/" ++ tail.

(** The errors of the taxonomy of section 7. *)
Definition is_nylas_error (e : exn) : bool :=
  match e with
  | NylasAPIError _ _ => true
  | NylasConnectionError _ => true
  | _ => false
  end.

(** The fields of the JSON objects of a list, in order. *)
Definition fields_of (j : json) : option (list (string * json)) :=
  match j with
  | JObj items => Some items
  | _ => None
  end.

(** The clients of the examples, as [__init__] builds them. *)
Definition blank_client : APIClient :=
  {| api_server := ""; authorize_url := ""; access_token_url := ""; revoke_url := "";
     app_secret := None; app_id := None; session := {| headers := ∅ |};
     _access_token := None; auth_token := None; admin_session := {| headers := ∅ |} |}.

Definition client_with (app_id app_secret access_token : option string) : APIClient :=
  match @__init__ cpython app_id app_secret access_token api_url with
  | Return self => self
  | Raise _ => blank_client
  end.

(** The client of the tests, without credentials. *)
Definition api_client : APIClient := client_with None None None.

(** A client with an application id, an application secret and an access
    token. *)
Definition admin_client : APIClient :=
  client_with (Some "app") (Some "secret") (Some "token").

(** A mock with one response registered. *)
Definition answering (status : Z) (text : string) : Mocked :=
  {| values := [(status, text)]; calls := [] |}.

(** A mock with no response registered. *)
Definition refusing : Mocked := {| values := []; calls := [] |}.

(** The URLs and the [Authorization] headers of the calls a computation
    makes against a mock that answers 200 with the given text. *)
Definition urls_sent {A} (text : string) (c : Mocked -> result A * Mocked) : list string :=
  map call_url (calls (snd (c (answering 200 text)))).

Definition authorizations_sent {A} (text : string) (c : Mocked -> result A * Mocked)
    : list (option string) :=
  map (fun call => call_headers call !! "Authorization")
      (calls (snd (c (answering 200 text)))).

(** The response of a proxy that answers 404 with a page of HTML. *)
Definition not_found_html : Response :=
  {| status_code := 404;
     text := "<html>Not Found</html>";
     request := {| method := GET; url := "https://localhost:2222/events/abc";
                   body := None |} |}.

(** ** More of the client *)

(** The HTTP method an operation uses and the model class it is about. *)
Definition op_method (op : operation) : http_method :=
  match op with
  | ListOp _ _ _ | GetOne _ _ _ | GetRaw _ _ _ _ _ => GET
  | CreateOp _ _ _ | CreateMany _ _ | InvokeAction _ _ _ _ => POST
  | UpdateOp _ _ _ _ => PUT
  | DeleteOp _ _ _ _ => DELETE
  end.

Definition op_class (op : operation) : ModelClass :=
  match op with
  | ListOp cls _ _ | GetOne cls _ _ | GetRaw cls _ _ _ _ | CreateOp cls _ _
  | CreateMany cls _ | UpdateOp cls _ _ _ | DeleteOp cls _ _ _
  | InvokeAction cls _ _ _ => cls
  end.

(** Whether the operation gives [headers=] to the call: the two reads of a
    single resource, and the two creations unless the class is [File]. *)
Definition passes_headers `{Models} (op : operation) : bool :=
  match op with
  | GetOne _ _ _ | GetRaw _ _ _ _ _ => true
  | CreateOp cls _ _ | CreateMany cls _ => negb (bool_decide (cls = File))
  | _ => false
  end.

(** The headers such an operation starts from, before it updates them with
    the headers of the standard session: those of its caller for a raw
    read, the content type for a creation. *)
Definition given_headers `{Models} (op : operation) : gmap string string :=
  match op with
  | GetRaw _ _ _ hdrs _ => default ∅ hdrs
  | CreateOp cls _ _ | CreateMany cls _ =>
      if bool_decide (cls = File) then ∅
      else {["Content-Type" := "application/json"]}
  | _ => ∅
  end.

(** The first header found among those of the standard session, of the
    operation and of the session selected: [requests] puts the headers of
    the call over those of the session, and the operation has put the
    headers of the standard session over its own. *)
Definition first_of (a b c : option string) : option string :=
  match a with
  | Some v => Some v
  | None => match b with Some v => Some v | None => c end
  end.




(** Whether copying the keys [message] and [server_error] out of a parsed
    body that is not an object raises [TypeError]: a number, a boolean and
    [None] are not containers; a string or a list that has one of the keys
    cannot be indexed by it. *)
Definition lookup_raises (j : json) : bool :=
  match j with
  | JObj _ => false
  | JStr s => str_contains "message" s || str_contains "server_error" s
  | JArr elems =>
      existsb (fun e => match e with JStr s => String.eqb s "message" | _ => false end) elems
      || existsb (fun e => match e with JStr s => String.eqb s "server_error" | _ => false end)
           elems
  | _ => true
  end.

Section TokenExchange.
Context `{Python} `{Transport}.

(** [requests.post(url, data=..., headers=...)]: a call through a session of
    its own, which has the default headers of [requests]. *)
Definition requests_post (url data : string) (hdrs : gmap string string) : M Response :=
  session_request {| headers := default_headers |} POST url (Some hdrs) (DataPayload data).

(** [token_for_code] up to the value it assigns to the [access_token]
    property, [resp[u'access_token']]. *)
Definition token_for_code_value (self : APIClient) (code : string) : M json :=
  let args := [("client_id", AStr (format_opt (app_id self)));
               ("client_secret", AStr (format_opt (app_secret self)));
               ("grant_type", AStr "authorization_code");
               ("code", AStr code)] in
  let hdrs := <["Content-type" := "application/x-www-form-urlencoded"]>
              (<["Accept" := "text/plain"]> ∅) in
  let! resp := requests_post (access_token_url self) (urlencode args) hdrs in
  let! resp := lift (json_of resp) in
  lift (py_getitem resp "access_token").

End TokenExchange.

(** * Properties *)

(** ** The response validator *)

Lemma spec_error_kind_table (code : Z) :
  spec_error_kind code =
  match table_get code status_code_to_exc with
  | Some cls => cls
  | None => APIClientError
  end.
Proof.
  destruct code as [|p|p]; [reflexivity| |reflexivity].
  do 10 (try (destruct p as [p|p|]; try reflexivity)).
Qed.

Section ValidateFacts.
Context `{Python}.

Lemma copy_key_cases key set response kw :
  (forall v k, err_url (set v k) = err_url k
               /\ err_status_code (set v k) = err_status_code k
               /\ err_data (set v k) = err_data k) ->
  copy_key key set response kw = Raise PyTypeError \/
  exists kw', copy_key key set response kw = Return kw'
              /\ err_url kw' = err_url kw
              /\ err_status_code kw' = err_status_code kw
              /\ err_data kw' = err_data kw.
Proof.
  intros Hset. unfold copy_key.
  destruct response as [ | b | n | s | elems | items]; simpl; auto.
  - destruct (str_contains key s); simpl; eauto 10.
  - destruct (existsb _ elems); simpl; eauto 10.
  - unfold dict_has. destruct (dict_get key items) as [v|]; simpl; [|eauto 10].
    right. exists (set v kw). split; [reflexivity|]. apply Hset.
Qed.

Lemma validate_ok response :
  status_code response = 200 -> _validate response = Return response.
Proof. intros E. unfold _validate. rewrite E. reflexivity. Qed.

Lemma validate_in_table response cls :
  table_get (status_code response) status_code_to_exc = Some cls ->
  exists kw, _validate response = Raise (NylasAPIError cls kw)
    /\ err_url kw = url (request response)
    /\ err_status_code kw = status_code response
    /\ err_data kw = parse_request_data (body (request response)).
Proof.
  intros Ht. unfold _validate.
  destruct (Z.eqb_spec (status_code response) 200) as [E|E].
  { rewrite E in Ht. discriminate. }
  rewrite Ht.
  destruct (json_loads (text response)) as [j|]; simpl.
  2: { eexists. split; [reflexivity|]. simpl. auto. }
  match goal with
  | |- context [copy_key "message" set_message j ?k] => set (kw0 := k)
  end.
  destruct (copy_key_cases "message" set_message j kw0) as [E1|(kw1 & E1 & U1 & S1 & D1)].
  { intros. simpl. auto. }
  { rewrite E1. simpl. eexists. split; [reflexivity|]. simpl. auto. }
  rewrite E1. simpl.
  destruct (copy_key_cases "server_error" set_server_error j kw1)
    as [E2|(kw2 & E2 & U2 & S2 & D2)].
  { intros. simpl. auto. }
  { rewrite E2. simpl. eexists. split; [reflexivity|]. simpl. auto. }
  rewrite E2. simpl. exists kw2. split; [reflexivity|].
  rewrite U2, S2, D2, U1, S1, D1. simpl. auto.
Qed.

Lemma validate_unknown response :
  status_code response <> 200 ->
  table_get (status_code response) status_code_to_exc = None ->
  _validate response =
  Raise (NylasAPIError APIClientError
    {| err_url := url (request response);
       err_status_code := status_code response;
       err_data := parse_request_data (body (request response));
       err_message := Some (JStr "Unknown status code.");
       err_server_error := None |}).
Proof.
  intros E Ht. unfold _validate.
  destruct (Z.eqb_spec (status_code response) 200); [contradiction|].
  rewrite Ht. reflexivity.
Qed.

Lemma validate_not_ok response :
  status_code response <> 200 ->
  exists kw, _validate response
             = Raise (NylasAPIError (spec_error_kind (status_code response)) kw)
    /\ (table_get (status_code response) status_code_to_exc = None ->
        err_message kw = Some (JStr "Unknown status code.")).
Proof.
  intros E. rewrite spec_error_kind_table.
  destruct (table_get (status_code response) status_code_to_exc) as [cls|] eqn:Ht.
  - destruct (validate_in_table response cls Ht) as (kw & Hv & _).
    exists kw. split; [exact Hv|discriminate].
  - rewrite (validate_unknown response E Ht). eexists. split; reflexivity.
Qed.

(** C4: when the status code is in the table and the body of the response
    is not JSON, [_validate] raises the class the table gives for the
    status code, with the message "Malformed": the failure to parse does
    not change the class. *)
Theorem malformed_body_keeps_error_kind (response : Response) (cls : exc_class) :
  table_get (status_code response) status_code_to_exc = Some cls ->
  json_loads (text response) = None ->
  cls = spec_error_kind (status_code response)
  /\ _validate response =
     Raise (NylasAPIError cls
       {| err_url := url (request response);
          err_status_code := status_code response;
          err_data := parse_request_data (body (request response));
          err_message := Some (JStr "Malformed");
          err_server_error := None |}).
Proof.
  intros Ht Hj. split.
  - rewrite spec_error_kind_table, Ht. reflexivity.
  - unfold _validate.
    destruct (Z.eqb_spec (status_code response) 200) as [E|E].
    { rewrite E in Ht. discriminate. }
    rewrite Ht, Hj. reflexivity.
Qed.

End ValidateFacts.

(** ** The operations *)

Ltac split_on_File :=
  repeat match goal with
         | |- context [decide (?c = File)] => destruct (decide (c = File))
         end.

Ltac run_request Hall :=
  match goal with
  | |- context [transport ?c ?w] =>
      let r := fresh "r" in
      let w' := fresh "w'" in
      let Ht := fresh "Ht" in
      let Hr := fresh "Hr" in
      destruct (Hall c) as (r & w' & Ht & Hr); rewrite Ht
  end.

Ltac unfold_operations :=
  unfold perform, _get_resources, _get_resource, _get_resource_data, _get_resource_raw,
    _create_resource, _create_resources, _delete_resource, _update_resource,
    _call_resource_method, post_data, nylas_excepted, bind, ret, lift, session_request.

Section PerformFacts.
Context `{Python} `{Transport} `{Models}.

Lemma perform_validation_error self op w cls :
  (forall call, exists r w',
      transport call w = (Responded r, w')
      /\ exists kw, _validate r = Raise (NylasAPIError cls kw)) ->
  exists kw, fst (perform self op w) = Raise (NylasAPIError cls kw).
Proof.
  intros Hall. destruct op; unfold_operations; split_on_File.
  all: run_request Hall; destruct Hr as (ekw & Hv); rewrite Hv; simpl; eauto.
Qed.

Lemma delete_validation_error self cls id data kw w ecls :
  (forall call, exists r w',
      transport call w = (Responded r, w')
      /\ exists ekw, _validate r = Raise (NylasAPIError ecls ekw)) ->
  exists ekw, fst (_delete_resource self cls id data kw w) = Raise (NylasAPIError ecls ekw).
Proof.
  intros Hall. unfold_operations.
  run_request Hall. destruct Hr as (ekw & Hv). rewrite Hv. simpl. eauto.
Qed.

(** C1: a response whose status code is not 200 makes [_validate], and so
    every operation of the mediator, raise the class the table gives for
    the status code, [APIClientError] with the message "Unknown status
    code." when the table has no entry; a delete answered with 404 raises
    [NotFoundError], and returns nothing that was deserialized. *)
Theorem status_code_raises_mapped_error
    (self : APIClient) (op : operation) (w : World) (code : Z) :
  code <> 200 ->
  (forall call, exists r w',
      transport call w = (Responded r, w') /\ status_code r = code) ->
  (forall r, status_code r = code ->
     exists kw, _validate r = Raise (NylasAPIError (spec_error_kind code) kw)
       /\ (table_get code status_code_to_exc = None ->
           err_message kw = Some (JStr "Unknown status code.")))
  /\ (exists kw, fst (perform self op w) = Raise (NylasAPIError (spec_error_kind code) kw))
  /\ (code = 404 -> forall cls id data kw,
        exists ekw, fst (_delete_resource self cls id data kw w)
                    = Raise (NylasAPIError NotFoundError ekw)).
Proof.
  intros Hcode Hall.
  assert (Hv : forall r, status_code r = code ->
     exists kw, _validate r = Raise (NylasAPIError (spec_error_kind code) kw)
       /\ (table_get code status_code_to_exc = None ->
           err_message kw = Some (JStr "Unknown status code."))).
  { intros r Hr. subst code. apply validate_not_ok. exact Hcode. }
  assert (Hall' : forall call, exists r w',
      transport call w = (Responded r, w')
      /\ exists kw, _validate r = Raise (NylasAPIError (spec_error_kind code) kw)).
  { intros call. destruct (Hall call) as (r & w' & Ht & Hr).
    destruct (Hv r Hr) as (kw & Hk & _). eauto 10. }
  split; [exact Hv|]. split.
  - apply perform_validation_error. exact Hall'.
  - intros E cls id data kw. subst code.
    apply delete_validation_error. exact Hall'.
Qed.

End PerformFacts.

Section MediatorFacts.
Context `{Python} `{Transport} `{Models}.

Lemma nylas_excepted_wraps {A} (func : APIClient -> M A) self w w' :
  func self w = (Raise RequestsConnectionError, w') ->
  nylas_excepted func self w = (Raise (NylasConnectionError (api_server self)), w').
Proof. intros E. unfold nylas_excepted. rewrite E. reflexivity. Qed.

(** C7: when the transport fails to connect, every operation of the
    mediator raises the connection error of the client, which carries the
    address of the API server and nothing else; the translation is done by
    [nylas_excepted] for whatever function it decorates. *)
Theorem connection_failure_is_wrapped
    (self : APIClient) (op : operation) (w : World) :
  (forall call, exists w', transport call w = (ConnectionFailed, w')) ->
  fst (perform self op w) = Raise (NylasConnectionError (api_server self))
  /\ (forall (A : Type) (func : APIClient -> M A) (w0 w1 : World),
        func self w0 = (Raise RequestsConnectionError, w1) ->
        nylas_excepted func self w0
        = (Raise (NylasConnectionError (api_server self)), w1)).
Proof.
  intros Hall. split.
  - destruct op; unfold_operations; split_on_File.
    all: match goal with
         | |- context [transport ?c ?w] =>
             let w' := fresh "w'" in
             let Ht := fresh "Ht" in
             destruct (Hall c) as (w' & Ht); rewrite Ht
         end; reflexivity.
  - intros A func w0 w1. apply nylas_excepted_wraps.
Qed.

Lemma create_from_cases cls self (x : json) :
  create_from cls self x = Raise PyTypeError
  \/ exists r, create_from cls self x = Return r.
Proof. destruct x; simpl; eauto. Qed.

Lemma comprehension_cases cls self (l : list json) :
  comprehension (create_from cls self) l = Raise PyTypeError
  \/ exists rs, comprehension (create_from cls self) l = Return rs.
Proof.
  induction l as [|x l IH]; simpl; [eauto|].
  destruct (create_from_cases cls self x) as [->|[r ->]]; simpl; [auto|].
  destruct IH as [->|[rs ->]]; simpl; eauto.
Qed.

Lemma comprehension_objects cls self (elems : list json) :
  Forall (fun x => x = JNull \/ exists items, x = JObj items) elems ->
  comprehension (create_from cls self) (List.filter (fun x => negb (is_null x)) elems)
  = Return (map (create cls self) (omap fields_of elems)).
Proof.
  induction 1 as [|x elems Hx _ IH]; [reflexivity|].
  destruct Hx as [->|[items ->]]; simpl.
  - exact IH.
  - rewrite IH. reflexivity.
Qed.

(** C8: a list request answered with status 200 and a JSON array builds a
    resource from every element that is not null, in the order of the
    array, and passes over the null elements without raising. *)
Theorem list_skips_null_elements
    (self : APIClient) (cls : ModelClass) (extra : option string) (filters : kwargs)
    (w : World) (elems : list json) :
  (forall call, exists r w',
      transport call w = (Responded r, w')
      /\ status_code r = 200 /\ json_loads (text r) = Some (JArr elems)) ->
  fst (_get_resources self cls extra filters w)
  = comprehension (create_from cls self) (List.filter (fun x => negb (is_null x)) elems)
  /\ (Forall (fun x => x = JNull \/ exists items, x = JObj items) elems ->
      fst (_get_resources self cls extra filters w)
      = Return (map (create cls self) (omap fields_of elems))).
Proof.
  intros Hall.
  assert (E : fst (_get_resources self cls extra filters w)
              = comprehension (create_from cls self)
                  (List.filter (fun x => negb (is_null x)) elems)).
  { unfold_operations. run_request Hall. destruct Hr as (Hs & Hj).
    rewrite (validate_ok _ Hs). unfold json_of. simpl. rewrite Hj. simpl.
    destruct (comprehension_cases cls self
                (List.filter (fun x => negb (is_null x)) elems)) as [->|[rs ->]];
      reflexivity. }
  split; [exact E|].
  intros Hobj. rewrite E. apply comprehension_objects. exact Hobj.
Qed.

(** C9: a create request answered with status 200 returns the parsed
    response as it is when the collection of the class is [send], and a
    resource built from the response for any other collection. *)
Theorem create_returns_raw_result_for_send
    (self : APIClient) (cls : ModelClass) (data : json) (kw : kwargs)
    (w : World) (j : json) :
  (forall call, exists r w',
      transport call w = (Responded r, w')
      /\ status_code r = 200 /\ json_loads (text r) = Some j) ->
  (collection_name cls = "send" ->
   fst (_create_resource self cls data kw w) = Return (RawResult j))
  /\ (collection_name cls <> "send" ->
      forall items, j = JObj items ->
      fst (_create_resource self cls data kw w)
      = Return (Wrapped (create cls self items))).
Proof.
  intros Hall. split.
  - intros Hsend. unfold_operations. split_on_File.
    all: run_request Hall; destruct Hr as (Hs & Hj);
      rewrite (validate_ok _ Hs); unfold json_of; simpl; rewrite Hj; simpl;
      rewrite Hsend; reflexivity.
  - intros Hother items ->. unfold_operations. split_on_File.
    all: run_request Hall; destruct Hr as (Hs & Hj);
      rewrite (validate_ok _ Hs); unfold json_of; simpl; rewrite Hj; simpl;
      destruct (String.eqb_spec (collection_name cls) "send"); [contradiction|];
      reflexivity.
Qed.

(** C10: when a get-one request is answered with status 200 and a JSON
    array, the resource is built from the first element of the array; on
    the empty array the access to the first element raises [IndexError],
    which is not an error of the client's taxonomy. *)
Theorem get_one_needs_non_empty_array
    (self : APIClient) (cls : ModelClass) (id : string) (filters : kwargs)
    (w : World) (elems : list json) :
  (forall call, exists r w',
      transport call w = (Responded r, w')
      /\ status_code r = 200 /\ json_loads (text r) = Some (JArr elems)) ->
  (forall first rest, elems = first :: rest ->
     fst (_get_resource self cls id filters w) = create_from cls self first)
  /\ (forall items rest, elems = JObj items :: rest ->
     fst (_get_resource self cls id filters w) = Return (create cls self items))
  /\ (elems = [] ->
      fst (_get_resource self cls id filters w) = Raise PyIndexError
      /\ is_nylas_error PyIndexError = false).
Proof.
  intros Hall.
  assert (E : forall first rest, elems = first :: rest ->
     fst (_get_resource self cls id filters w) = create_from cls self first).
  { intros first rest ->. unfold_operations. run_request Hall.
    destruct Hr as (Hs & Hj). rewrite (validate_ok _ Hs). unfold json_of. simpl.
    rewrite Hj. simpl. destruct (create_from cls self first); reflexivity. }
  split; [exact E|]. split.
  - intros items rest Hel. rewrite (E _ _ Hel). reflexivity.
  - intros ->. split; [|reflexivity]. unfold_operations. run_request Hall.
    destruct Hr as (Hs & Hj). rewrite (validate_ok _ Hs). unfold json_of. simpl.
    rewrite Hj. reflexivity.
Qed.

End MediatorFacts.

(** ** Dictionaries and query strings *)

Lemma dict_get_In {V} key (v : V) d : dict_get key d = Some v -> In (key, v) d.
Proof.
  induction d as [|[k x] d IH]; simpl; [discriminate|].
  destruct (String.eqb_spec k key) as [->|Hne].
  - intros [= ->]. left. reflexivity.
  - intros Hd. right. apply IH. exact Hd.
Qed.

Lemma dict_get_set_eq {V} key (v : V) d : dict_get key (dict_set key v d) = Some v.
Proof.
  induction d as [|[k x] d IH]; simpl.
  - rewrite String.eqb_refl. reflexivity.
  - destruct (String.eqb_spec k key) as [->|Hne]; simpl.
    + rewrite String.eqb_refl. reflexivity.
    + destruct (String.eqb_spec k key); [contradiction|]. exact IH.
Qed.

Lemma dict_get_set_ne {V} key key' (v : V) d :
  key <> key' -> dict_get key (dict_set key' v d) = dict_get key d.
Proof.
  intros Hne. induction d as [|[k x] d IH]; simpl.
  - destruct (String.eqb_spec key' key); [congruence|reflexivity].
  - destruct (String.eqb_spec k key') as [->|Hk]; simpl.
    + destruct (String.eqb_spec key' key); [congruence|reflexivity].
    + destruct (String.eqb_spec k key); [reflexivity|exact IH].
Qed.

Lemma dict_set_not_nil {V} key (v : V) d : dict_set key v d <> [].
Proof. destruct d as [|[k x] d]; simpl; [|destruct (String.eqb k key)]; discriminate. Qed.

Lemma quote_plus_uint (d : Decimal.uint) :
  quote_plus (NilEmpty.string_of_uint d) = NilEmpty.string_of_uint d.
Proof. induction d; simpl; rewrite ?IHd; reflexivity. Qed.

Lemma quote_plus_str_int (n : Z) : quote_plus (str_int n) = str_int n.
Proof.
  unfold str_int, NilZero.string_of_int, NilZero.string_of_uint.
  destruct (Z.to_int n) as [d|d]; destruct d; simpl; rewrite ?quote_plus_uint; reflexivity.
Qed.

Lemma offset_segment (n : Z) : query_segment ("offset", AInt n) = "offset=" ++ str_int n.
Proof. unfold query_segment. simpl. rewrite quote_plus_str_int. reflexivity. Qed.

(** ** Traversals against the mocked transport *)

Section ListRequest.
Context `{Python} `{Transport} `{Models}.

(** The one call a list request makes, whatever comes back. *)
Lemma list_request_call self cls filters :
  exists call,
    call_url call = url_concat (spec_url self cls None None) filters
    /\ forall w, snd (_get_resources self cls None filters w) = snd (transport call w).
Proof.
  exists {| call_method := GET;
            call_url := url_concat (spec_url self cls None None) filters;
            call_headers := headers (_get_http_session self (api_root cls));
            call_payload := NoPayload |}.
  split; [reflexivity|]. intros w. unfold_operations.
  replace (url_concat _ filters)
    with (url_concat (spec_url self cls None None) filters).
  - destruct (transport _ w) as [[r|] w']; simpl; [|reflexivity].
    destruct (_validate r) as [r'|e]; simpl.
    + destruct (json_of r') as [j|e]; simpl.
      * destruct (rbind (py_iter j) _) as [rs|e]; simpl; [reflexivity|].
        destruct e; reflexivity.
      * destruct e; reflexivity.
    + destruct e; reflexivity.
  - f_equal. unfold spec_url, postfix_of. simpl.
    destruct (String.eqb (api_root cls) "a"); reflexivity.
Qed.

End ListRequest.

Section Mock.
Context `{Python} `{Models}.
#[local] Existing Instance mocked_responses.

Lemma callback_calls call (w : Mocked) :
  calls (snd (callback call w)) = (calls w ++ [call])%list.
Proof.
  unfold callback. destruct (rev (values w)) as [|[status text] earlier]; reflexivity.
Qed.

Lemma drain_S fuel c offset :
  drain (S fuel) c offset =
  (let! page := _get_model_collection c offset CHUNK_SIZE in
   if (length page <? CHUNK_SIZE)%nat
   then ret (Some page)
   else
     let! offset' := lift (advance offset (length page)) in
     let! rest := drain fuel c offset' in
     ret (option_map (app page) rest)).
Proof. reflexivity. Qed.

(** The first call of a traversal is the request for the page at its
    offset, and stays the first call recorded. *)
Lemma drain_first_call fuel c offset (w : Mocked) :
  exists call more,
    call_url call
    = url_concat (spec_url (api c) (model_class c) None None)
        (page_filters c offset CHUNK_SIZE)
    /\ calls (snd (drain (S fuel) c offset w)) = (calls w ++ call :: more)%list.
Proof.
  revert offset w. induction fuel as [|fuel IH]; intros offset w.
  all: rewrite drain_S; unfold _get_model_collection.
  all: destruct (list_request_call (api c) (model_class c)
                   (page_filters c offset CHUNK_SIZE)) as (call & Hurl & Hw).
  all: specialize (Hw w); exists call; unfold bind at 1.
  all: destruct (_get_resources _ _ _ _ _) as [[page|e] w1] eqn:E; simpl in Hw.
  all: assert (Hc : calls w1 = (calls w ++ [call])%list)
         by (rewrite Hw; apply callback_calls).
  all: try (exists []; split; [exact Hurl|exact Hc]).
  all: destruct (length page <? CHUNK_SIZE)%nat;
         [exists []; split; [exact Hurl|exact Hc]|].
  all: unfold bind at 1; unfold lift.
  all: destruct (advance offset (length page)) as [offset'|e]; cbv beta iota;
         [|exists []; split; [exact Hurl|exact Hc]].
  - exists []. split; [exact Hurl|exact Hc].
  - destruct (IH offset' w1) as (call' & more & _ & Hm).
    exists (call' :: more). split; [exact Hurl|].
    unfold bind at 1. unfold ret.
    destruct (drain (S fuel) c offset' w1) as [[rest|e] w2]; simpl in *;
      rewrite Hm, Hc, <- app_assoc; reflexivity.
Qed.

Lemma url_concat_args url (args : kwargs) :
  args <> [] -> url_concat url args = url ++ "?" ++ String.concat "&" (map query_segment args).
Proof. destruct args; [contradiction|reflexivity]. Qed.

(** C6: the first request of a traversal carries the parameter [offset]:
    [offset=0] when the caller's filters have no offset, [offset=0] when
    the caller gave the offset 0, and [offset=N], in decimal, when the
    caller gave the offset N. *)
Theorem first_request_carries_offset
    (self : APIClient) (cls : ModelClass) (filter : kwargs) (fuel : nat)
    (w : Mocked) (offset : Z) :
  calls w = [] ->
  (dict_get "offset" filter = None /\ offset = 0
   \/ dict_get "offset" filter = Some (AInt offset)) ->
  exists first rest segs,
    calls (snd (items (S fuel) (where_ filter (new_collection cls self)) w))
    = first :: rest
    /\ call_url first = spec_url self cls None None ++ "?" ++ String.concat "&" segs
    /\ In ("offset=" ++ str_int offset) segs.
Proof.
  intros Hlog Hoff.
  set (c := where_ filter (new_collection cls self)).
  assert (Hstart : dict_get "offset" (filters c) = Some (AInt offset)).
  { unfold c, where_, dict_setdefault, dict_has. simpl.
    destruct Hoff as [[Hn ->]|Hs].
    - rewrite Hn. apply dict_get_set_eq.
    - rewrite Hs. exact Hs. }
  unfold items, start_offset. rewrite Hstart.
  destruct (drain_first_call fuel c (AInt offset) w) as (call & more & Hurl & Hcalls).
  exists call, more, (map query_segment (page_filters c (AInt offset) CHUNK_SIZE)).
  split; [rewrite Hcalls, Hlog; reflexivity|]. split.
  - rewrite Hurl. apply url_concat_args. apply dict_set_not_nil.
  - rewrite <- offset_segment. apply in_map. apply dict_get_In.
    unfold page_filters. rewrite dict_get_set_ne by discriminate.
    apply dict_get_set_eq.
Qed.

Lemma comprehension_map_obj cls self (page : list (list (string * json))) :
  comprehension (create_from cls self)
    (List.filter (fun x => negb (is_null x)) (map JObj page))
  = Return (map (create cls self) page).
Proof.
  induction page as [|x page IH]; [reflexivity|]. simpl. rewrite IH. reflexivity.
Qed.

(** A list request answered by the mock with status 200 and an array of
    objects. *)
Lemma mock_list_page self cls extra filters body page earlier log :
  json_loads body = Some (JArr (map JObj page)) ->
  exists call,
    _get_resources self cls extra filters
      {| values := earlier ++ [(200, body)]; calls := log |}
    = (Return (map (create cls self) page),
       {| values := earlier; calls := log ++ [call] |}).
Proof.
  intros Hj. eexists. unfold_operations. unfold transport, mocked_responses, callback.
  cbn [values calls]. rewrite rev_app_distr. cbn [rev app]. rewrite rev_involutive.
  rewrite validate_ok by reflexivity. unfold json_of. simpl. rewrite Hj. simpl.
  rewrite comprehension_map_obj. reflexivity.
Qed.

Lemma drain_pages c (fulls : list (string * list (list (string * json)))) :
  forall fuel k log short later,
  Forall (fun p => json_loads (fst p) = Some (JArr (map JObj (snd p)))
                   /\ (CHUNK_SIZE <= length (snd p))%nat) fulls ->
  json_loads (fst short) = Some (JArr (map JObj (snd short))) ->
  (length (snd short) < CHUNK_SIZE)%nat ->
  (length fulls < fuel)%nat ->
  exists w',
    drain fuel c (AInt k)
      {| values := later ++ (200, fst short) :: rev (map (fun p => (200, fst p)) fulls);
         calls := log |}
    = (Return (Some (map (create (model_class c) (api c))
                       (concat (map snd fulls) ++ snd short))), w')
    /\ values w' = later.
Proof.
  induction fulls as [|p fulls IH]; intros fuel k log short later Hfull Hshort Hlen Hfuel.
  - destruct fuel as [|fuel]; [simpl in Hfuel; lia|].
    rewrite drain_S. unfold _get_model_collection. simpl rev. simpl concat.
    destruct (mock_list_page (api c) (model_class c) None
                (page_filters c (AInt k) CHUNK_SIZE) (fst short) (snd short) later log Hshort)
      as (call & Hpage).
    unfold bind at 1. rewrite Hpage. cbv beta iota.
    rewrite (length_map (create (model_class c) (api c)) (snd short)).
    destruct (Nat.ltb_spec (length (snd short)) CHUNK_SIZE); [|lia].
    eexists. split; reflexivity.
  - destruct fuel as [|fuel]; [simpl in Hfuel; lia|].
    inversion Hfull as [|? ? [Hp Hplen] Hrest]; subst.
    rewrite drain_S. unfold _get_model_collection.
    replace (later ++ (200, fst short) :: rev (map (fun p => (200, fst p)) (p :: fulls)))%list
      with ((later ++ (200, fst short) :: rev (map (fun p => (200, fst p)) fulls))
            ++ [(200, fst p)])%list
      by (simpl; rewrite <- app_assoc; reflexivity).
    destruct (mock_list_page (api c) (model_class c) None
                (page_filters c (AInt k) CHUNK_SIZE) (fst p) (snd p)
                (later ++ (200, fst short) :: rev (map (fun p => (200, fst p)) fulls))
                log Hp) as (call & Hpage).
    unfold bind at 1. rewrite Hpage. cbv beta iota.
    rewrite (length_map (create (model_class c) (api c)) (snd p)).
    destruct (Nat.ltb_spec (length (snd p)) CHUNK_SIZE); [lia|].
    unfold bind at 1. unfold lift. simpl advance. cbv iota beta.
    destruct (IH fuel (k + Z.of_nat (length (snd p)))
                (log ++ [call])%list short later Hrest Hshort Hlen) as (w' & Hd & Hv).
    { simpl in Hfuel. lia. }
    unfold bind, ret. rewrite Hd. simpl.
    exists w'. split; [|exact Hv].
    simpl concat. rewrite <- (app_assoc (snd p)). rewrite !map_app. reflexivity.
Qed.

(** C3: [all()] returns the items of the pages served up to and including
    the first page shorter than the page size, and asks for no page after
    it; when the pages consumed have 50 and then 22 items, as in
    [test_no_filter], it returns 72 items. *)
Theorem all_stops_at_first_short_page
    (c : RestfulModelCollection) (k : Z) (fuel : nat)
    (fulls : list (string * list (list (string * json))))
    (short : string * list (list (string * json)))
    (later : list (Z * string)) (log : list HttpCall) :
  start_offset c = AInt k ->
  Forall (fun p => json_loads (fst p) = Some (JArr (map JObj (snd p)))
                   /\ (CHUNK_SIZE <= length (snd p))%nat) fulls ->
  json_loads (fst short) = Some (JArr (map JObj (snd short))) ->
  (length (snd short) < CHUNK_SIZE)%nat ->
  (length fulls < fuel)%nat ->
  (exists w',
     all_ fuel c
       {| values := later ++ (200, fst short) :: rev (map (fun p => (200, fst p)) fulls);
          calls := log |}
     = (Return (Some (map (create (model_class c) (api c))
                        (concat (map snd fulls) ++ snd short))), w')
     /\ values w' = later)
  /\ (exists l,
        fst (@all_ cpython (@mocked_responses cpython) models 2
               (new_collection Event api_client) test_no_filter)
        = Return (Some l)
        /\ length l = 72%nat
        /\ CHUNK_SIZE = 50%nat
        /\ option_map (fun r => dict_get "id" (built_fields r)) (head l)
           = Some (Some (JStr "cv4ei7syx10uvsxbs21ccsezf"))).
Proof.
  intros Hstart Hfull Hshort Hlen Hfuel. split.
  - unfold all_. rewrite Hstart. apply drain_pages; assumption.
  - exists (repeat {| built_class := Event; built_fields := message_fields |} 72).
    split; [vm_compute; reflexivity|]. repeat split.
Qed.

End Mock.

(** ** Credentials *)

Section Credentials.
Context `{Python}.

Lemma set_access_token_bearer (token : string) (self : APIClient) :
  token <> "" ->
  headers (session (set_access_token (Some token) self)) !! "Authorization"
  = Some ("Bearer " ++ token)
  /\ access_token (set_access_token (Some token) self) = Some token.
Proof.
  intros Hne. unfold set_access_token. simpl.
  destruct token; [contradiction|]. simpl. split; [|reflexivity].
  apply lookup_insert_eq.
Qed.

Lemma set_access_token_unset (self : APIClient) :
  headers (session (set_access_token None self)) !! "Authorization" = None.
Proof. unfold set_access_token. simpl. apply lookup_delete_eq. Qed.

Lemma set_access_token_admin (value : option string) (self : APIClient) :
  admin_session (set_access_token value self) = admin_session self.
Proof. unfold set_access_token. destruct (truthy value); reflexivity. Qed.

Lemma init_admin_session app_id secret token server self :
  __init__ app_id (Some secret) token server = Return self ->
  headers (_get_http_session self "a") !! "Authorization"
  = Some ("Basic " ++ b64encode (secret ++ ":")).
Proof.
  unfold __init__. destruct (negb (str_contains "://" server)); [discriminate|].
  intros [= <-]. simpl. apply lookup_insert_eq.
Qed.

Lemma init_session app_id secret (token : string) server self :
  token <> "" ->
  __init__ app_id secret (Some token) server = Return self ->
  headers (_get_http_session self "n") !! "Authorization" = Some ("Bearer " ++ token).
Proof.
  intros Hne. unfold __init__.
  destruct (negb (str_contains "://" server)); [discriminate|].
  intros [= <-]. destruct secret; simpl.
  all: unfold set_access_token; simpl; destruct token; [contradiction|]; simpl.
  all: apply lookup_insert_eq.
Qed.

End Credentials.

(** ** The requests of a client with all three credentials *)

Section Requests.
#[local] Existing Instance cpython.
#[local] Existing Instance models.
#[local] Existing Instance mocked_responses.

(** C2: for the admin class [Account] and the application id [app], the
    list, get-one and sub-action requests go to
    [{base}/a/app/accounts...], as section 4.1 has it, but the create,
    create-many, update and delete requests go to [{base}/accounts...],
    without the [/a/app] prefix. *)
Theorem admin_write_requests_lack_prefix :
  api_root Account = "a"
  /\ urls_sent "[]" (perform admin_client (ListOp Account None []))
     = ["https://localhost:2222/a/app/accounts"]
  /\ urls_sent "{}" (perform admin_client (GetOne Account "acc" []))
     = ["https://localhost:2222/a/app/accounts/acc"]
  /\ urls_sent "{}" (perform admin_client (InvokeAction Account "acc" "upgrade" (JObj [])))
     = ["https://localhost:2222/a/app/accounts/acc/upgrade"]
  /\ urls_sent "{}" (perform admin_client (CreateOp Account (JObj []) []))
     = ["https://localhost:2222/accounts/"]
  /\ urls_sent "[]" (perform admin_client (CreateMany Account (JArr [])))
     = ["https://localhost:2222/accounts/"]
  /\ urls_sent "{}" (perform admin_client (UpdateOp Account "acc" (JObj []) []))
     = ["https://localhost:2222/accounts/acc"]
  /\ urls_sent "{}" (perform admin_client (DeleteOp Account "acc" None []))
     = ["https://localhost:2222/accounts/acc"]
  /\ spec_url admin_client Account None None = "https://localhost:2222/a/app/accounts"
  /\ spec_url admin_client Account (Some "acc") None
     = "https://localhost:2222/a/app/accounts/acc".
Proof. repeat split; vm_compute; reflexivity. Qed.

(** C5: the session selected for the admin namespace carries the basic
    credentials of the application secret and the session of the standard
    namespace the bearer token; a list request for the admin class
    [Account] is sent with the basic credentials, but the get-one and
    create requests for it are sent with the bearer token, because they
    pass the headers of the standard session along with the call. *)
Theorem admin_get_one_sends_bearer_token :
  headers (_get_http_session admin_client "a") !! "Authorization"
  = Some "Basic c2VjcmV0Og=="
  /\ headers (_get_http_session admin_client "n") !! "Authorization"
     = Some "Bearer token"
  /\ authorizations_sent "[]" (perform admin_client (ListOp Account None []))
     = [Some "Basic c2VjcmV0Og=="]
  /\ authorizations_sent "{}" (perform admin_client (GetOne Account "acc" []))
     = [Some "Bearer token"]
  /\ authorizations_sent "{}" (perform admin_client (GetRaw Account "acc" None None []))
     = [Some "Bearer token"]
  /\ authorizations_sent "{}" (perform admin_client (CreateOp Account (JObj []) []))
     = [Some "Bearer token"]
  /\ authorizations_sent "[]" (perform admin_client (CreateMany Account (JArr [])))
     = [Some "Bearer token"].
Proof. repeat split; vm_compute; reflexivity. Qed.

End Requests.

(** ** The properties at the fixtures of the tests *)

Section Fixtures.
#[local] Existing Instance cpython.
#[local] Existing Instance models.
#[local] Existing Instance mocked_responses.

Lemma status_code_raises_mapped_error_witness :
  exists kw,
    fst (perform admin_client (DeleteOp Event "abc" None []) (answering 404 "{}"))
    = Raise (NylasAPIError NotFoundError kw).
Proof.
  destruct (@status_code_raises_mapped_error cpython mocked_responses models admin_client
              (DeleteOp Event "abc" None []) (answering 404 "{}") 404)
    as (_ & Hperform & _).
  - lia.
  - intros call. do 2 eexists. split; reflexivity.
  - exact Hperform.
Defined.

Lemma malformed_body_keeps_error_kind_witness :
  _validate not_found_html
  = Raise (NylasAPIError NotFoundError
      {| err_url := "https://localhost:2222/events/abc";
         err_status_code := 404;
         err_data := DataNone;
         err_message := Some (JStr "Malformed");
         err_server_error := None |}).
Proof.
  destruct (@malformed_body_keeps_error_kind cpython not_found_html NotFoundError)
    as (_ & Hraised).
  - reflexivity.
  - vm_compute. reflexivity.
  - exact Hraised.
Defined.

Lemma connection_failure_is_wrapped_witness :
  fst (perform admin_client (ListOp Event None []) refusing)
  = Raise (NylasConnectionError "https://localhost:2222").
Proof.
  destruct (@connection_failure_is_wrapped cpython mocked_responses models admin_client (ListOp Event None []) refusing)
    as (Hperform & _).
  - intros call. eexists. reflexivity.
  - exact Hperform.
Defined.

Lemma list_skips_null_elements_witness :
  fst (_get_resources admin_client Event None []
         (answering 200 (dumps (JArr [message_body; JNull; message_body]))))
  = Return [create Event admin_client message_fields;
            create Event admin_client message_fields].
Proof.
  destruct (@list_skips_null_elements cpython mocked_responses models admin_client Event None []
              (answering 200 (dumps (JArr [message_body; JNull; message_body])))
              [message_body; JNull; message_body])
    as (_ & Hobjects).
  - intros call. do 2 eexists. split; [reflexivity|]. split; [reflexivity|].
    vm_compute. reflexivity.
  - apply Hobjects.
    constructor; [right; eexists; reflexivity|].
    constructor; [left; reflexivity|].
    constructor; [right; eexists; reflexivity|].
    constructor.
Defined.

Lemma create_returns_raw_result_for_send_witness :
  fst (_create_resource admin_client Send message_body []
         (answering 200 (dumps message_body)))
  = Return (RawResult message_body)
  /\ fst (_create_resource admin_client Event message_body []
            (answering 200 (dumps message_body)))
     = Return (Wrapped (create Event admin_client message_fields)).
Proof.
  split.
  - destruct (@create_returns_raw_result_for_send cpython mocked_responses models admin_client Send message_body []
                (answering 200 (dumps message_body)) message_body) as (Hsend & _).
    + intros call. do 2 eexists. split; [reflexivity|]. split; [reflexivity|].
      vm_compute. reflexivity.
    + apply Hsend. reflexivity.
  - destruct (@create_returns_raw_result_for_send cpython mocked_responses models admin_client Event message_body []
                (answering 200 (dumps message_body)) message_body) as (_ & Hother).
    + intros call. do 2 eexists. split; [reflexivity|]. split; [reflexivity|].
      vm_compute. reflexivity.
    + apply Hother; [discriminate|reflexivity].
Defined.

Lemma get_one_needs_non_empty_array_witness :
  fst (_get_resource admin_client Event "abc" [] (answering 200 "[]"))
  = Raise PyIndexError
  /\ fst (_get_resource admin_client Event "abc" []
            (answering 200 (dumps (JArr [message_body]))))
     = Return (create Event admin_client message_fields).
Proof.
  split.
  - destruct (@get_one_needs_non_empty_array cpython mocked_responses models admin_client Event "abc" []
                (answering 200 "[]") []) as (_ & _ & Hempty).
    + intros call. do 2 eexists. split; [reflexivity|]. split; [reflexivity|].
      vm_compute. reflexivity.
    + apply Hempty. reflexivity.
  - destruct (@get_one_needs_non_empty_array cpython mocked_responses models admin_client Event "abc" []
                (answering 200 (dumps (JArr [message_body]))) [message_body])
      as (_ & Hfirst & _).
    + intros call. do 2 eexists. split; [reflexivity|]. split; [reflexivity|].
      vm_compute. reflexivity.
    + apply (Hfirst message_fields []). reflexivity.
Defined.

Lemma first_request_carries_offset_witness :
  exists first rest segs,
    calls (snd (items 1 (where_ [("in", AStr "Nylas"); ("offset", AInt 7)]
                           (new_collection Event admin_client))
                  (answering 200 "[]")))
    = first :: rest
    /\ call_url first = "https://localhost:2222/events" ++ "?" ++ String.concat "&" segs
    /\ In "offset=7" segs.
Proof.
  apply (@first_request_carries_offset cpython models admin_client Event
           [("in", AStr "Nylas"); ("offset", AInt 7)] 0 (answering 200 "[]") 7).
  - reflexivity.
  - right. reflexivity.
Defined.

Lemma all_stops_at_first_short_page_witness :
  exists w',
    all_ 2 (new_collection Event admin_client) test_no_filter
    = (Return (Some (map (create Event admin_client) (repeat message_fields 72))), w')
    /\ values w' = [].
Proof.
  destruct (@all_stops_at_first_short_page cpython models (new_collection Event admin_client) 0 2
              [(message_body_list 50, repeat message_fields 50)]
              (message_body_list 22, repeat message_fields 22) [] [])
    as (Hdrained & _).
  - reflexivity.
  - constructor; [|constructor]. split; [vm_compute; reflexivity|].
    vm_compute. lia.
  - vm_compute. reflexivity.
  - vm_compute. lia.
  - simpl. lia.
  - exact Hdrained.
Defined.

(** The requests of [test_no_offset], [test_zero_offset] and of a traversal
    from the offset 7. *)
Example test_no_offset :
  urls_sent "[]" (items 1 (where_ [("in", AStr "Nylas")] (new_collection Event admin_client)))
  = ["https://localhost:2222/events?in=Nylas&offset=0&limit=50"].
Proof. vm_compute. reflexivity. Qed.

Example test_zero_offset :
  urls_sent "[]" (items 1 (where_ [("in", AStr "Nylas"); ("offset", AInt 0)]
                             (new_collection Event admin_client)))
  = ["https://localhost:2222/events?in=Nylas&offset=0&limit=50"].
Proof. vm_compute. reflexivity. Qed.

Example test_non_zero_offset :
  urls_sent "[]" (items 1 (where_ [("in", AStr "Nylas"); ("offset", AInt 7)]
                             (new_collection Event admin_client)))
  = ["https://localhost:2222/events?in=Nylas&offset=7&limit=50"].
Proof. vm_compute. reflexivity. Qed.

End Fixtures.

(** ** The call each operation makes *)

Section RequestsSent.
Context `{Python} `{Transport} `{Models}.

Ltac same_world :=
  repeat match goal with
         | |- context [match ?r with Return _ => _ | Raise _ => _ end] =>
             destruct r; simpl
         | |- context [match ?e with NylasAPIError _ _ => _ | _ => _ end] =>
             destruct e; simpl
         | |- context [if ?b then _ else _] => destruct b; simpl
         end; try reflexivity.

(** The create request goes to [{base}/{collection}/] whatever the
    namespace of the class. *)
Lemma create_request_call self cls data :
  exists call,
    call_url call = api_server self ++ "/" ++ collection_name cls ++ "/"
    /\ forall w, snd (_create_resource self cls data [] w) = snd (transport call w).
Proof.
  unfold_operations. destruct (decide (cls = File)).
  all: match goal with |- context [Build_HttpCall ?m ?u ?h ?p] => exists (Build_HttpCall m u h p) end.
  all: split; [reflexivity|]; intros w; simpl.
  all: destruct (transport _ w) as [[r|] w']; simpl; [|reflexivity].
  all: unfold json_of; same_world.
Qed.

(** The update request goes to [{base}/{collection}/{id}] whatever the
    namespace of the class. *)
Lemma update_request_call self cls id data :
  exists call,
    call_url call = api_server self ++ "/" ++ collection_name cls ++ "/" ++ id
    /\ forall w, snd (_update_resource self cls id data [] w) = snd (transport call w).
Proof.
  unfold_operations.
  match goal with |- context [Build_HttpCall ?m ?u ?h ?p] => exists (Build_HttpCall m u h p) end.
  split; [reflexivity|]. intros w. simpl.
  destruct (transport _ w) as [[r|] w']; simpl; [|reflexivity].
  unfold json_of; same_world.
Qed.

(** The delete request goes to [{base}/{collection}/{id}] whatever the
    namespace of the class. *)
Lemma delete_request_call self cls id data :
  exists call,
    call_url call = api_server self ++ "/" ++ collection_name cls ++ "/" ++ id
    /\ forall w, snd (_delete_resource self cls id data [] w) = snd (transport call w).
Proof.
  unfold_operations.
  match goal with |- context [Build_HttpCall ?m ?u ?h ?p] => exists (Build_HttpCall m u h p) end.
  split; [reflexivity|]. intros w. simpl.
  destruct (transport _ w) as [[r|] w']; simpl; [|reflexivity].
  same_world.
Qed.

(** The get-one request is sent with the [Authorization] header of the
    standard session when that session has one, and with the header of the
    selected session otherwise. *)
Lemma get_one_request_call self cls id extra filters :
  exists call,
    call_headers call !! "Authorization"
    = match headers (session self) !! "Authorization" with
      | Some v => Some v
      | None => headers (_get_http_session self (api_root cls)) !! "Authorization"
      end
    /\ forall w, snd (_get_resource_raw self cls id extra None filters w)
                 = snd (transport call w).
Proof.
  unfold_operations.
  match goal with |- context [Build_HttpCall ?m ?u ?h ?p] => exists (Build_HttpCall m u h p) end.
  split.
  - simpl. rewrite lookup_union, lookup_union, lookup_empty.
    destruct (headers (session self) !! "Authorization") as [v|]; simpl.
    + destruct (headers (_get_http_session self (api_root cls)) !! "Authorization");
        reflexivity.
    + destruct (headers (_get_http_session self (api_root cls)) !! "Authorization");
        reflexivity.
  - intros w. destruct (transport _ w) as [[r|] w']; simpl; [|reflexivity].
    same_world.
Qed.

(** The list request is sent with the headers of the selected session. *)
Lemma list_request_headers self cls extra filters :
  exists call,
    call_headers call = headers (_get_http_session self (api_root cls))
    /\ forall w, snd (_get_resources self cls extra filters w) = snd (transport call w).
Proof.
  unfold_operations.
  match goal with |- context [Build_HttpCall ?m ?u ?h ?p] => exists (Build_HttpCall m u h p) end.
  split; [reflexivity|]. intros w.
  destruct (transport _ w) as [[r|] w']; simpl; [|reflexivity].
  unfold json_of; same_world.
Qed.

End RequestsSent.

(** ** Substrings *)

Lemma append_cons (a : ascii) (s t : string) : String a s ++ t = String a (s ++ t).
Proof. reflexivity. Qed.

Lemma prefixb_spec (p s : string) :
  prefixb p s = true <-> exists post, s = p ++ post.
Proof.
  revert s. induction p as [|a p IH]; intros s.
  - split; [intros _; exists s; reflexivity|reflexivity].
  - destruct s as [|b s]; simpl.
    + split; [discriminate|]. intros [post Hs]. rewrite append_cons in Hs. discriminate.
    + destruct (Ascii.eqb_spec a b) as [->|Hne].
      * rewrite IH. split; intros [post Hs]; exists post.
        -- rewrite append_cons, Hs. reflexivity.
        -- rewrite append_cons in Hs. injection Hs as Hs. exact Hs.
      * split; [discriminate|]. intros [post Hs]. rewrite append_cons in Hs.
        injection Hs as Hab _. congruence.
Qed.

Lemma str_contains_unfold (sub s : string) :
  str_contains sub s =
  if prefixb sub s then true
  else match s with
       | EmptyString => false
       | String _ s' => str_contains sub s'
       end.
Proof. destruct s; reflexivity. Qed.

Lemma str_contains_spec (sub s : string) :
  str_contains sub s = true <-> exists pre post, s = pre ++ sub ++ post.
Proof.
  split.
  - induction s as [|a s IH]; rewrite str_contains_unfold.
    + destruct (prefixb sub "") eqn:E; [|discriminate]. intros _.
      apply prefixb_spec in E. destruct E as [post E]. exists "", post. exact E.
    + destruct (prefixb sub (String a s)) eqn:E.
      * intros _. apply prefixb_spec in E. destruct E as [post E].
        exists "", post. exact E.
      * intros H. destruct (IH H) as (pre & post & Hs).
        exists (String a pre), post. rewrite append_cons, Hs. reflexivity.
  - intros (pre & post & Hs). revert s Hs.
    induction pre as [|a pre IH]; intros s Hs; rewrite str_contains_unfold.
    + assert (E : prefixb sub s = true) by (apply prefixb_spec; exists post; exact Hs).
      rewrite E. reflexivity.
    + destruct (prefixb sub s); [reflexivity|].
      rewrite append_cons in Hs. subst s. apply IH. reflexivity.
Qed.

(** ** Building a client and rotating its token *)

Section Construction.
Context `{Python}.

(** X1: the constructor accepts exactly the server addresses that contain
    [://]: the client it returns has the address, the three OAuth URLs
    derived from it and the credentials it was given; any other address
    raises the exception that asks for [https://]. *)
Theorem init_requires_scheme
    (app_id0 app_secret0 access_token0 : option string) (server : string) :
  ((exists pre post, server = pre ++ "://" ++ post)
   /\ exists self,
        __init__ app_id0 app_secret0 access_token0 server = Return self
        /\ api_server self = server
        /\ authorize_url self = server ++ "/oauth/authorize"
        /\ access_token_url self = server ++ "/oauth/token"
        /\ revoke_url self = server ++ "/oauth/revoke"
        /\ app_id self = app_id0
        /\ app_secret self = app_secret0
        /\ access_token self = access_token0
        /\ auth_token self = None)
  \/ ((~ exists pre post, server = pre ++ "://" ++ post)
      /\ __init__ app_id0 app_secret0 access_token0 server
         = Raise (PyException
             "When overriding the Nylas API server address, you must include https://")).
Proof.
  unfold __init__. destruct (str_contains "://" server) eqn:E; simpl.
  - left. split; [apply str_contains_spec; exact E|].
    eexists. split; [reflexivity|].
    unfold set_access_token.
    destruct app_secret0, (truthy access_token0); simpl; repeat split.
  - right. split; [|reflexivity].
    intros Hsub. apply str_contains_spec in Hsub. congruence.
Qed.

(** X17: the sessions of a new client.  The standard session announces the
    wrapper and the SDK version, and has the bearer header exactly when the
    token given is a non-empty string.  With an application secret the
    admin session has the same two headers and the basic credentials;
    without one it is a session of [requests] left as it was created, with
    the default headers of [requests] only. *)
Theorem init_sessions
    (app_id0 app_secret0 access_token0 : option string) (server : string)
    (self : APIClient) :
  __init__ app_id0 app_secret0 access_token0 server = Return self ->
  headers (session self)
  = (if truthy access_token0
     then <["Authorization" := "Bearer " ++ format_opt access_token0]>
     else delete "Authorization")
      (<["X-Nylas-API-Wrapper" := "python"]> (<["User-Agent" := version_header]> ∅))
  /\ headers (session self) !! "X-Nylas-API-Wrapper" = Some "python"
  /\ headers (session self) !! "User-Agent" = Some version_header
  /\ headers (admin_session self)
     = match app_secret0 with
       | Some secret =>
           <["Authorization" := "Basic " ++ b64encode (secret ++ ":")]>
           (<["X-Nylas-API-Wrapper" := "python"]> (<["User-Agent" := version_header]> ∅))
       | None => default_headers
       end.
Proof.
  unfold __init__. destruct (negb (str_contains "://" server)); [discriminate|].
  intros [= <-]. unfold set_access_token.
  destruct app_secret0, (truthy access_token0); simpl; repeat split;
    try reflexivity.
  all: rewrite ?lookup_insert_ne, ?lookup_delete_ne by discriminate.
  all: try apply lookup_insert_eq.
  all: rewrite lookup_insert_ne by discriminate; apply lookup_insert_eq.
Qed.

(** X3: after an assignment to [access_token] the standard session has the
    header [Authorization: Bearer <token>] exactly when the value is a
    non-empty string; [None] and the empty string both leave no
    [Authorization] header; the getter returns the value as assigned. *)
Theorem set_access_token_header (value : option string) (self : APIClient) :
  headers (session (set_access_token value self)) !! "Authorization"
  = match value with
    | Some (String a token) => Some ("Bearer " ++ String a token)
    | Some EmptyString => None
    | None => None
    end
  /\ access_token (set_access_token value self) = value.
Proof.
  unfold set_access_token.
  destruct value as [[|a token]|]; simpl; split; try reflexivity.
  - apply lookup_delete_eq.
  - apply lookup_insert_eq.
  - apply lookup_delete_eq.
Qed.

(** X2: assigning a token and then another leaves the client as assigning
    the second alone does: nothing of the first token survives. *)
Theorem set_access_token_last_wins (v1 v2 : option string) (self : APIClient) :
  set_access_token v2 (set_access_token v1 self) = set_access_token v2 self.
Proof.
  unfold set_access_token.
  destruct (truthy v1), (truthy v2); destruct self; simpl;
    unfold with_session, with__access_token; simpl; do 2 f_equal.
  - apply insert_insert_eq.
  - apply delete_insert_eq.
  - apply insert_delete_eq.
  - apply delete_delete_eq.
Qed.

(** X4: an assignment to [access_token] changes the [Authorization] header
    of the standard session and the stored token, and nothing else: the
    other headers, the admin session, the addresses and the application
    credentials stay. *)
Theorem set_access_token_frame (value : option string) (self : APIClient) (name : string) :
  name <> "Authorization" ->
  headers (session (set_access_token value self)) !! name = headers (session self) !! name
  /\ admin_session (set_access_token value self) = admin_session self
  /\ api_server (set_access_token value self) = api_server self
  /\ revoke_url (set_access_token value self) = revoke_url self
  /\ access_token_url (set_access_token value self) = access_token_url self
  /\ authorize_url (set_access_token value self) = authorize_url self
  /\ app_id (set_access_token value self) = app_id self
  /\ app_secret (set_access_token value self) = app_secret self
  /\ auth_token (set_access_token value self) = auth_token self.
Proof.
  intros Hne. unfold set_access_token.
  destruct (truthy value); simpl; repeat split.
  - apply lookup_insert_ne. congruence.
  - apply lookup_delete_ne. congruence.
Qed.

End Construction.

(** ** More on the validator and the decorator *)

Section ValidatorMore.
Context `{Python}.

(** X6: [_validate] returns the response itself when the status code is
    200 and raises an API error otherwise, whatever the body is: no
    [ValueError], [TypeError] or [KeyError] of the parsing escapes.  The
    error has the class of the status code and carries the URL of the
    request, the status code and the data of the request. *)
Theorem validate_returns_or_raises_api_error (response : Response) :
  (status_code response = 200 /\ _validate response = Return response)
  \/ (status_code response <> 200
      /\ exists kw,
           _validate response
           = Raise (NylasAPIError (spec_error_kind (status_code response)) kw)
           /\ err_url kw = url (request response)
           /\ err_status_code kw = status_code response
           /\ err_data kw = parse_request_data (body (request response))).
Proof.
  destruct (Z.eq_dec (status_code response) 200) as [E|E].
  - left. split; [exact E|apply validate_ok; exact E].
  - right. split; [exact E|]. rewrite spec_error_kind_table.
    destruct (table_get (status_code response) status_code_to_exc) as [cls|] eqn:Ht.
    + apply validate_in_table. exact Ht.
    + rewrite (validate_unknown response E Ht). eexists. repeat split.
Qed.

(** X7: when the status code is in the table and the body is a JSON
    object, the error carries the fields [message] and [server_error] of
    the object, each absent when the object has no such field. *)
Theorem validate_copies_message_and_server_error
    (response : Response) (cls : exc_class) (items : list (string * json)) :
  table_get (status_code response) status_code_to_exc = Some cls ->
  json_loads (text response) = Some (JObj items) ->
  _validate response =
  Raise (NylasAPIError cls
    {| err_url := url (request response);
       err_status_code := status_code response;
       err_data := parse_request_data (body (request response));
       err_message := dict_get "message" items;
       err_server_error := dict_get "server_error" items |}).
Proof.
  intros Ht Hj. unfold _validate.
  destruct (Z.eqb_spec (status_code response) 200) as [E|E].
  { rewrite E in Ht. discriminate. }
  rewrite Ht, Hj. unfold copy_key, py_in, py_getitem, dict_has. simpl.
  destruct (dict_get "message" items) as [m|]; simpl;
    destruct (dict_get "server_error" items) as [e|]; reflexivity.
Qed.

(** X8: when the status code is in the table and the body is JSON but not
    an object, the message is "Malformed" if the body is a number, a
    boolean or null, or a string or array in which one of the keys
    [message] and [server_error] occurs; any other string or array gives
    an error with no message at all. *)
Theorem validate_body_not_an_object
    (response : Response) (cls : exc_class) (j : json) :
  table_get (status_code response) status_code_to_exc = Some cls ->
  json_loads (text response) = Some j ->
  fields_of j = None ->
  _validate response =
  Raise (NylasAPIError cls
    {| err_url := url (request response);
       err_status_code := status_code response;
       err_data := parse_request_data (body (request response));
       err_message := if lookup_raises j then Some (JStr "Malformed") else None;
       err_server_error := None |}).
Proof.
  intros Ht Hj Hobj. unfold _validate.
  destruct (Z.eqb_spec (status_code response) 200) as [E|E].
  { rewrite E in Ht. discriminate. }
  rewrite Ht, Hj. unfold copy_key.
  destruct j as [ | b | n | s | elems | items]; try discriminate; simpl;
    try reflexivity.
  - destruct (str_contains "message" s); simpl; [reflexivity|].
    destruct (str_contains "server_error" s); reflexivity.
  - destruct (existsb _ elems); simpl; [reflexivity|].
    destruct (existsb _ elems); reflexivity.
Qed.

End ValidatorMore.

Section DecoratorMore.
Context `{Transport}.

(** X9: [nylas_excepted] changes nothing but the connection error of
    [requests]: a function that returns, or raises anything else, gives the
    same outcome decorated; the world is always left as the function left
    it; a decorated function never raises the connection error of
    [requests]; decorating twice is decorating once. *)
Theorem nylas_excepted_only_translates_connection_errors
    {A : Type} (func : APIClient -> M A) (self : APIClient) (w : World) :
  (fst (func self w) <> Raise RequestsConnectionError ->
   nylas_excepted func self w = func self w)
  /\ snd (nylas_excepted func self w) = snd (func self w)
  /\ fst (nylas_excepted func self w) <> Raise RequestsConnectionError
  /\ nylas_excepted (nylas_excepted func) self w = nylas_excepted func self w.
Proof.
  unfold nylas_excepted.
  destruct (func self w) as [[a|e] w']; simpl.
  - repeat split; discriminate.
  - destruct e; simpl; repeat split; try discriminate. intros Hne. congruence.
Qed.

End DecoratorMore.

(** ** The one call of an operation *)

Ltac settle_world :=
  repeat match goal with
         | |- context [match ?r with Return _ => _ | Raise _ => _ end] =>
             destruct r; simpl
         | |- context [match ?e with NylasAPIError _ _ => _ | _ => _ end] =>
             destruct e; simpl
         | |- context [match ?j with JArr _ => _ | _ => _ end] =>
             destruct j; simpl
         | |- context [match ?l with [] => _ | _ :: _ => _ end] =>
             destruct l; simpl
         | |- context [if ?b then _ else _] => destruct b; simpl
         end; try reflexivity.

Section OneCall.
Context `{Python} `{Transport} `{Models}.

Lemma perform_call self op :
  exists call,
    call_method call = op_method op
    /\ (forall name,
          call_headers call !! name
          = if passes_headers op
            then first_of (headers (session self) !! name)
                          (given_headers op !! name)
                          (headers (_get_http_session self (api_root (op_class op))) !! name)
            else headers (_get_http_session self (api_root (op_class op))) !! name)
    /\ forall w, snd (perform self op w) = snd (transport call w).
Proof.
  destruct op; unfold_operations; unfold passes_headers, given_headers.
  all: try (destruct (decide (cls = File)) as [E|E];
            [rewrite (bool_decide_eq_true_2 _ E)|rewrite (bool_decide_eq_false_2 _ E)]).
  all: match goal with
       | |- context [Build_HttpCall ?m ?u ?h ?p] => exists (Build_HttpCall m u h p)
       end.
  all: split; [reflexivity|]; split.
  all: try (intros name; reflexivity).
  all: try (intros name; simpl; unfold first_of;
            rewrite !lookup_union; rewrite ?lookup_empty;
            destruct (headers (session self) !! name);
            destruct (headers (_get_http_session self (api_root cls)) !! name);
            simpl; try reflexivity;
            match goal with
            | |- context [?m !! name] => destruct (m !! name); reflexivity
            end).
  all: intros w; destruct (transport _ w) as [[r|] w']; simpl; try reflexivity.
  all: unfold json_of; settle_world.
Qed.

End OneCall.

Section OneCallMocked.
Context `{Python} `{Models}.
#[local] Existing Instance mocked_responses.

Lemma callback_values call (w : Mocked) :
  values (snd (callback call w)) = removelast (values w).
Proof.
  unfold callback. destruct (rev (values w)) as [|[status text] earlier] eqn:E.
  - apply (f_equal (@rev _)) in E. rewrite rev_involutive in E. rewrite E. reflexivity.
  - apply (f_equal (@rev _)) in E. rewrite rev_involutive in E. rewrite E. simpl.
    rewrite removelast_last. reflexivity.
Qed.

(** X10: every operation of the mediator makes exactly one call, with the
    method of the operation, and takes at most one response: there is no
    second request and no retry, whatever the outcome. *)
Theorem operation_makes_one_call (self : APIClient) (op : operation) (w : Mocked) :
  exists call,
    calls (snd (perform self op w)) = (calls w ++ [call])%list
    /\ call_method call = op_method op
    /\ values (snd (perform self op w)) = removelast (values w).
Proof.
  destruct (perform_call self op) as (call & Hm & _ & Hw).
  exists call. rewrite (Hw w). simpl.
  split; [apply callback_calls|]. split; [exact Hm|apply callback_values].
Qed.


(** X12: after a token is assigned, every operation on a class of the
    standard namespace whose caller gives no [Authorization] header is sent
    with [Authorization: Bearer <token>] when the token is a non-empty
    string and with no [Authorization] header when it is [None] or empty:
    the token of the moment, not one kept from the construction. *)
Theorem standard_request_carries_current_token
    (self : APIClient) (value : option string) (op : operation) (w : Mocked) :
  api_root (op_class op) <> "a" ->
  given_headers op !! "Authorization" = None ->
  exists call,
    calls (snd (perform (set_access_token value self) op w)) = (calls w ++ [call])%list
    /\ call_headers call !! "Authorization"
       = match value with
         | Some (String a token) => Some ("Bearer " ++ String a token)
         | Some EmptyString => None
         | None => None
         end.
Proof.
  intros Hns Hgiven.
  destruct (perform_call (set_access_token value self) op) as (call & _ & Hh & Hw).
  exists call. rewrite (Hw w). simpl. split; [apply callback_calls|].
  rewrite Hh. unfold _get_http_session.
  destruct (String.eqb_spec (api_root (op_class op)) "a"); [contradiction|].
  rewrite Hgiven. unfold first_of.
  assert (Hset : headers (session (set_access_token value self)) !! "Authorization"
                 = match value with
                   | Some (String a token) => Some ("Bearer " ++ String a token)
                   | Some EmptyString => None
                   | None => None
                   end).
  { unfold set_access_token. destruct value as [[|a token]|]; simpl.
    - apply lookup_delete_eq.
    - apply lookup_insert_eq.
    - apply lookup_delete_eq. }
  rewrite Hset.
  destruct (passes_headers op); [|reflexivity].
  destruct value as [[|a token]|]; reflexivity.
Qed.

End OneCallMocked.

(** ** Answers with status 200 the operations cannot use *)

Section SuccessBodies.
Context `{Python} `{Transport} `{Models}.

(** X13: when the answer has status 200 and a body that is not JSON, a raw
    read returns the body as it is, a deletion returns nothing, and every
    other operation raises [ValueError], which [nylas_excepted] lets
    through. *)
Theorem success_with_unparseable_body
    (self : APIClient) (op : operation) (w : World) (raw : string) :
  (forall call, exists r w',
      transport call w = (Responded r, w') /\ status_code r = 200 /\ text r = raw) ->
  json_loads raw = None ->
  fst (perform self op w)
  = match op with
    | GetRaw _ _ _ _ _ => Return (Bytes raw)
    | DeleteOp _ _ _ _ => Return Nothing
    | _ => Raise PyValueError
    end.
Proof.
  intros Hall Hj. destruct op; unfold_operations; split_on_File.
  all: run_request Hall; destruct Hr as (Hs & Htext);
    rewrite (validate_ok _ Hs); unfold json_of, content; simpl;
    rewrite ?Htext, ?Hj; reflexivity.
Qed.

Lemma comprehension_not_object cls self (elems : list json) :
  Exists (fun x => fields_of x = None) elems ->
  comprehension (create_from cls self) elems = Raise PyTypeError.
Proof.
  induction 1 as [x elems Hx|x elems _ IH]; simpl.
  - destruct x; try discriminate; reflexivity.
  - destruct (create_from_cases cls self x) as [->|[r ->]]; simpl; [reflexivity|].
    rewrite IH. reflexivity.
Qed.

Lemma comprehension_all_objects cls self (objs : list (list (string * json))) :
  comprehension (create_from cls self) (map JObj objs)
  = Return (map (create cls self) objs).
Proof.
  induction objs as [|x objs IH]; [reflexivity|]. simpl. rewrite IH. reflexivity.
Qed.

(** X14: unlike a list request, a create-many request does not pass over
    null elements: answered with status 200 and an array, it builds a
    resource from every element when all are objects, and raises
    [TypeError] as soon as one element, null included, is not an object. *)
Theorem create_many_does_not_skip_null
    (self : APIClient) (cls : ModelClass) (data : json) (w : World)
    (elems : list json) :
  (forall call, exists r w',
      transport call w = (Responded r, w')
      /\ status_code r = 200 /\ json_loads (text r) = Some (JArr elems)) ->
  (forall objs, elems = map JObj objs ->
     fst (_create_resources self cls data w) = Return (map (create cls self) objs))
  /\ (Exists (fun x => fields_of x = None) elems ->
      fst (_create_resources self cls data w) = Raise PyTypeError).
Proof.
  intros Hall.
  assert (E : fst (_create_resources self cls data w)
              = comprehension (create_from cls self) elems).
  { unfold_operations; split_on_File.
    all: run_request Hall; destruct Hr as (Hs & Hj);
      rewrite (validate_ok _ Hs); unfold json_of; simpl; rewrite Hj; simpl;
      destruct (comprehension_cases cls self elems) as [->|[rs ->]]; reflexivity. }
  split.
  - intros objs ->. rewrite E. apply comprehension_all_objects.
  - intros Hex. rewrite E. apply comprehension_not_object. exact Hex.
Qed.

(** X15: only the get-one operation takes the first element of an array.
    Answered with status 200 and a JSON array, an update, a sub-action and
    a creation outside the [send] collection raise [TypeError]. *)
Theorem array_answer_is_refused_outside_get_one
    (self : APIClient) (cls : ModelClass) (id method_name : string) (data : json)
    (kw : kwargs) (w : World) (elems : list json) :
  (forall call, exists r w',
      transport call w = (Responded r, w')
      /\ status_code r = 200 /\ json_loads (text r) = Some (JArr elems)) ->
  fst (_update_resource self cls id data kw w) = Raise PyTypeError
  /\ fst (_call_resource_method self cls id method_name data w) = Raise PyTypeError
  /\ (collection_name cls <> "send" ->
      fst (_create_resource self cls data kw w) = Raise PyTypeError).
Proof.
  intros Hall. repeat split.
  3: intros Hsend.
  all: unfold_operations; split_on_File.
  all: run_request Hall; destruct Hr as (Hs & Hj);
    rewrite (validate_ok _ Hs); unfold json_of; simpl; rewrite Hj; simpl.
  all: try (destruct (String.eqb_spec (collection_name cls) "send"); [contradiction|]).
  all: reflexivity.
Qed.

(** X16: a list request answered with status 200 and JSON that is not an
    array returns the empty list for the empty object and the empty
    string, which have nothing to iterate over, and raises [TypeError] for
    every other value. *)
Theorem list_answer_not_an_array
    (self : APIClient) (cls : ModelClass) (extra : option string) (filters : kwargs)
    (w : World) (j : json) :
  (forall call, exists r w',
      transport call w = (Responded r, w')
      /\ status_code r = 200 /\ json_loads (text r) = Some j) ->
  (forall elems, j <> JArr elems) ->
  fst (_get_resources self cls extra filters w)
  = match j with
    | JObj [] => Return []
    | JStr EmptyString => Return []
    | _ => Raise PyTypeError
    end.
Proof.
  intros Hall Hnot. unfold_operations. run_request Hall. destruct Hr as (Hs & Hj).
  rewrite (validate_ok _ Hs). unfold json_of. simpl. rewrite Hj. simpl.
  destruct j as [ | b | n | s | elems | items]; simpl; try reflexivity.
  - destruct s; reflexivity.
  - exfalso. apply (Hnot elems). reflexivity.
  - destruct items as [|[k v] items]; reflexivity.
Qed.

(** X5: [revoke_token] posts to the revoke URL with the headers of the
    standard session and no body.  Answered with status 200 it leaves the
    client without token: no access token, no auth token and no
    [Authorization] header in the standard session, the admin session
    untouched.  Answered with another status it raises the API error of
    [_validate]; when the connection fails it raises the connection error
    of the client; in both cases no client is returned. *)
Theorem revoke_token_outcome (self : APIClient) (w : World) :
  let call := {| call_method := POST; call_url := revoke_url self;
                 call_headers := headers (session self);
                 call_payload := NoPayload |} in
  let revoked := set_access_token None (with_auth_token None self) in
  revoke_token self w
  = match transport call w with
    | (Responded r, w') => (rbind (_validate r) (fun _ => Return revoked), w')
    | (ConnectionFailed, w') => (Raise (NylasConnectionError (api_server self)), w')
    end
  /\ access_token revoked = None
  /\ auth_token revoked = None
  /\ headers (session revoked) !! "Authorization" = None
  /\ admin_session revoked = admin_session self.
Proof.
  simpl. split.
  - unfold revoke_token, nylas_excepted, bind, ret, lift, session_request.
    destruct (transport _ w) as [[r|] w']; [|reflexivity].
    destruct (validate_returns_or_raises_api_error r) as [[_ ->]|[_ (kw & -> & _)]];
      reflexivity.
  - repeat split. apply lookup_delete_eq.
Qed.

(** X18: the token exchange is not decorated and does not validate the
    status code.  When the connection fails, the connection error of
    [requests] itself leaves [token_for_code]; whatever the status code of
    the answer, the value assigned to [access_token] is the field
    [access_token] of the body when the body is a JSON object that has it;
    a JSON object without the field raises [KeyError], and a body that is
    not JSON raises [ValueError]. *)
Theorem token_exchange_is_not_guarded
    (self : APIClient) (code : string) (w : World) :
  exists call,
    call_method call = POST
    /\ call_url call = access_token_url self
    /\ call_headers call !! "Authorization" = default_headers !! "Authorization"
    /\ call_headers call !! "Content-type" = Some "application/x-www-form-urlencoded"
    /\ call_headers call !! "Accept" = Some "text/plain"
    /\ token_for_code_value self code w
       = match transport call w with
         | (Responded r, w') =>
             (match json_loads (text r) with
              | None => Raise PyValueError
              | Some (JObj items) =>
                  match dict_get "access_token" items with
                  | Some v => Return v
                  | None => Raise PyKeyError
                  end
              | Some _ => Raise PyTypeError
              end, w')
         | (ConnectionFailed, w') => (Raise RequestsConnectionError, w')
         end.
Proof.
  unfold token_for_code_value, requests_post, bind, lift, session_request, json_of.
  match goal with
  | |- context [Build_HttpCall ?m ?u ?h ?p] => exists (Build_HttpCall m u h p)
  end.
  split; [reflexivity|]. split; [reflexivity|]. simpl. split.
  { rewrite lookup_union. rewrite lookup_insert_ne by discriminate.
    rewrite lookup_insert_ne by discriminate. rewrite lookup_empty.
    destruct (default_headers !! "Authorization"); reflexivity. }
  split.
  { rewrite lookup_union. rewrite lookup_insert_eq.
    destruct (default_headers !! "Content-type"); reflexivity. }
  split.
  { rewrite lookup_union. rewrite lookup_insert_ne by discriminate.
    rewrite lookup_insert_eq. destruct (default_headers !! "Accept"); reflexivity. }
  destruct (transport _ w) as [[r|] w']; [|reflexivity].
  destruct (json_loads (text r)) as [[ | b | n | s | elems | items]|]; reflexivity.
Qed.

End SuccessBodies.

(** ** The URL of an operation *)



Section OperationURL.
Context `{Python} `{Transport} `{Models}.


End OperationURL.

Section OperationURLMocked.
Context `{Python} `{Models}.
#[local] Existing Instance mocked_responses.


End OperationURLMocked.

Section GetOneAnswers.
Context `{Python} `{Transport} `{Models}.

(** X21: a get-one request answered with status 200 and JSON that is not
    an array builds the resource from the object itself, and raises
    [TypeError] when the value is not an object either. *)
Theorem get_one_answer_not_an_array
    (self : APIClient) (cls : ModelClass) (id : string) (filters : kwargs)
    (w : World) (j : json) :
  (forall call, exists r w',
      transport call w = (Responded r, w')
      /\ status_code r = 200 /\ json_loads (text r) = Some j) ->
  (forall elems, j <> JArr elems) ->
  fst (_get_resource self cls id filters w)
  = match j with
    | JObj items => Return (create cls self items)
    | _ => Raise PyTypeError
    end.
Proof.
  intros Hall Hnot. unfold_operations. run_request Hall. destruct Hr as (Hs & Hj).
  rewrite (validate_ok _ Hs). unfold json_of. simpl. rewrite Hj. simpl.
  destruct j as [ | b | n | s | elems | items]; simpl; try reflexivity.
  exfalso. apply (Hnot elems). reflexivity.
Qed.

End GetOneAnswers.

(** ** The further properties at the fixtures *)

Section MoreFixtures.
#[local] Existing Instance cpython.
#[local] Existing Instance models.
#[local] Existing Instance mocked_responses.

Lemma set_access_token_frame_witness :
  headers (session (set_access_token (Some "other") admin_client)) !! "User-Agent"
  = Some "Nylas Python SDK 1.2.3 - 3.6.8".
Proof.
  destruct (set_access_token_frame (Some "other") admin_client "User-Agent")
    as (Hkept & _).
  - discriminate.
  - rewrite Hkept. vm_compute. reflexivity.
Defined.

Lemma init_sessions_witness :
  headers (admin_session (client_with (Some "app") None (Some "token")))
  = default_headers.
Proof.
  destruct (@init_sessions cpython (Some "app") None (Some "token") api_url
              (client_with (Some "app") None (Some "token")))
    as (_ & _ & _ & Hadmin).
  - reflexivity.
  - exact Hadmin.
Defined.

Lemma validate_copies_message_and_server_error_witness :
  exists kw,
    _validate {| status_code := 400;
                 text := dumps (JObj [("message", JStr "Invalid id"); ("type", JStr "x")]);
                 request := {| method := GET; url := "https://localhost:2222/events/abc";
                               body := None |} |}
    = Raise (NylasAPIError InvalidRequestError kw)
    /\ err_message kw = Some (JStr "Invalid id")
    /\ err_server_error kw = None.
Proof.
  eexists. split.
  - apply (@validate_copies_message_and_server_error cpython _ InvalidRequestError
             [("message", JStr "Invalid id"); ("type", JStr "x")]).
    + reflexivity.
    + vm_compute. reflexivity.
  - split; reflexivity.
Defined.

Lemma validate_body_not_an_object_witness :
  exists kw,
    _validate {| status_code := 500; text := "503";
                 request := {| method := GET; url := "https://localhost:2222/events";
                               body := None |} |}
    = Raise (NylasAPIError ServerError kw)
    /\ err_message kw = Some (JStr "Malformed").
Proof.
  eexists. split.
  - apply (@validate_body_not_an_object cpython _ ServerError (JNum 503)).
    + reflexivity.
    + vm_compute. reflexivity.
    + reflexivity.
  - reflexivity.
Defined.

Lemma standard_request_carries_current_token_witness :
  exists call,
    calls (snd (perform (set_access_token (Some "rotated") admin_client)
                  (UpdateOp Event "abc" message_body []) (answering 200 "{}")))
    = [call]
    /\ call_headers call !! "Authorization" = Some "Bearer rotated".
Proof.
  apply (@standard_request_carries_current_token cpython models admin_client
           (Some "rotated") (UpdateOp Event "abc" message_body []) (answering 200 "{}")).
  - discriminate.
  - reflexivity.
Defined.

Lemma success_with_unparseable_body_witness :
  fst (perform admin_client (GetRaw Event "abc" None None []) (answering 200 "%PDF-1.4"))
  = Return (Bytes "%PDF-1.4")
  /\ fst (perform admin_client (GetOne Event "abc" []) (answering 200 "%PDF-1.4"))
     = Raise PyValueError.
Proof.
  split.
  - apply (@success_with_unparseable_body cpython mocked_responses models admin_client
             (GetRaw Event "abc" None None []) (answering 200 "%PDF-1.4") "%PDF-1.4").
    + intros call. do 2 eexists. split; [reflexivity|]. split; reflexivity.
    + vm_compute. reflexivity.
  - apply (@success_with_unparseable_body cpython mocked_responses models admin_client
             (GetOne Event "abc" []) (answering 200 "%PDF-1.4") "%PDF-1.4").
    + intros call. do 2 eexists. split; [reflexivity|]. split; reflexivity.
    + vm_compute. reflexivity.
Defined.

Lemma create_many_does_not_skip_null_witness :
  fst (_create_resources admin_client Event (JArr [])
         (answering 200 (dumps (JArr [message_body; JNull]))))
  = Raise PyTypeError.
Proof.
  destruct (@create_many_does_not_skip_null cpython mocked_responses models admin_client
              Event (JArr []) (answering 200 (dumps (JArr [message_body; JNull])))
              [message_body; JNull]) as (_ & Hnull).
  - intros call. do 2 eexists. split; [reflexivity|]. split; [reflexivity|].
    vm_compute. reflexivity.
  - apply Hnull. right. left. reflexivity.
Defined.

Lemma array_answer_is_refused_outside_get_one_witness :
  fst (_update_resource admin_client Event "abc" message_body []
         (answering 200 (dumps (JArr [message_body]))))
  = Raise PyTypeError.
Proof.
  destruct (@array_answer_is_refused_outside_get_one cpython mocked_responses models
              admin_client Event "abc" "rsvp" message_body []
              (answering 200 (dumps (JArr [message_body]))) [message_body])
    as (Hupdate & _).
  - intros call. do 2 eexists. split; [reflexivity|]. split; [reflexivity|].
    vm_compute. reflexivity.
  - exact Hupdate.
Defined.

Lemma list_answer_not_an_array_witness :
  fst (_get_resources admin_client Event None [] (answering 200 "{}")) = Return []
  /\ fst (_get_resources admin_client Event None [] (answering 200 "null"))
     = Raise PyTypeError.
Proof.
  split.
  - apply (@list_answer_not_an_array cpython mocked_responses models admin_client
             Event None [] (answering 200 "{}") (JObj [])).
    + intros call. do 2 eexists. split; [reflexivity|]. split; [reflexivity|].
      vm_compute. reflexivity.
    + discriminate.
  - apply (@list_answer_not_an_array cpython mocked_responses models admin_client
             Event None [] (answering 200 "null") JNull).
    + intros call. do 2 eexists. split; [reflexivity|]. split; [reflexivity|].
      vm_compute. reflexivity.
    + discriminate.
Defined.


Lemma get_one_answer_not_an_array_witness :
  fst (_get_resource admin_client Event "abc" [] (answering 200 (dumps message_body)))
  = Return (create Event admin_client message_fields).
Proof.
  apply (@get_one_answer_not_an_array cpython mocked_responses models admin_client
           Event "abc" [] (answering 200 (dumps message_body)) message_body).
  - intros call. do 2 eexists. split; [reflexivity|]. split; [reflexivity|].
    vm_compute. reflexivity.
  - discriminate.
Defined.

End MoreFixtures.
